(** * Gatekeeper device simulators: the HTTP and the UDP trigger responder

    A shallow embedding of the two scripts of the repository,

      - [gatekeeper-pwa/scripts/api-simulator.py]  (module [api_simulator])
      - [scripts/udpServerSim.py]                  (module [udpServerSim])

    together with the part of the Python runtime they call into
    ([urllib.parse.urlparse], [http.server.BaseHTTPRequestHandler], a
    datagram socket, [time.sleep], [print]).

    Conventions.
      - Time is counted in milliseconds ([N]): [time.sleep(0.5)] is
        [sleep 500], [time.sleep(0.1)] is [sleep 100].
      - A Python [str] read off an HTTP request line is decoded as
        iso-8859-1, one character per byte, hence modelled by [string];
        [bytes] objects are [list byte].
      - Effects are threaded through a state monad over a [World]: a clock,
        the latencies the operating system adds to each call, the lines
        printed on standard output, and a device (socket or connection).
      - The library functions follow CPython 3.11 ([Lib/urllib/parse.py],
        [Lib/http/server.py]). A request is taken from the point where
        [parse_request] has accepted an HTTP/1.x request line; a response is
        kept as the sequence of pieces the handler formats (status line,
        header lines, blank line, data) rather than as raw bytes. *)

From Stdlib Require Import List String Ascii NArith Arith Bool Lia.
From Stdlib Require Import Strings.Byte.
From Stdlib Require Import DecimalString.
Import ListNotations.

Local Open Scope string_scope.
Local Open Scope N_scope.

Set Implicit Arguments.

(* ===================================================================== *)
(** ** Python [str] methods                                              *)
(* ===================================================================== *)

Module PyStr.

(** [c in s] for a one-character [c]. *)
Fixpoint contains (c : ascii) (s : string) : bool :=
  match s with
  | EmptyString => false
  | String a r => if Ascii.eqb a c then true else contains c r
  end.

(** [s.find(c)]; [None] stands for Python's [-1]. *)
Fixpoint find (c : ascii) (s : string) : option nat :=
  match s with
  | EmptyString => None
  | String a r =>
      if Ascii.eqb a c then Some O
      else match find c r with Some i => Some (S i) | None => None end
  end.

(** [s.rfind(c)]. *)
Fixpoint rfind (c : ascii) (s : string) : option nat :=
  match s with
  | EmptyString => None
  | String a r =>
      match rfind c r with
      | Some i => Some (S i)
      | None => if Ascii.eqb a c then Some O else None
      end
  end.

(** [s[:i]] and [s[i:]] for a non-negative index. *)
Fixpoint take (i : nat) (s : string) : string :=
  match i, s with
  | S k, String a r => String a (take k r)
  | _, _ => EmptyString
  end.

Fixpoint drop (i : nat) (s : string) : string :=
  match i, s with
  | S k, String _ r => drop k r
  | _, _ => s
  end.

(** [s.find(c, start)]. *)
Definition find_from (c : ascii) (start : nat) (s : string) : option nat :=
  match find c (drop start s) with
  | Some i => if Nat.leb start (String.length s) then Some (start + i)%nat else None
  | None => None
  end.

(** [s.split(c, 1)] on a string that contains [c]: the text before the
    first [c] and the text after it. *)
Fixpoint split1 (c : ascii) (s : string) : string * string :=
  match s with
  | EmptyString => (EmptyString, EmptyString)
  | String a r =>
      if Ascii.eqb a c then (EmptyString, r)
      else let (h, t) := split1 c r in (String a h, t)
  end.

(** [s.lstrip(chars)]. *)
Fixpoint lstrip (chars : string) (s : string) : string :=
  match s with
  | EmptyString => EmptyString
  | String a r => if contains a chars then lstrip chars r else s
  end.

(** [s.replace(c, "")] for a one-character [c]. *)
Fixpoint remove (c : ascii) (s : string) : string :=
  match s with
  | EmptyString => EmptyString
  | String a r => if Ascii.eqb a c then remove c r else String a (remove c r)
  end.

(** [s.replace(c, t)] for a one-character [c]. *)
Fixpoint replace (c : ascii) (t : string) (s : string) : string :=
  match s with
  | EmptyString => EmptyString
  | String a r =>
      if Ascii.eqb a c then t ++ replace c t r else String a (replace c t r)
  end.

(** [s.startswith(p)]. *)
Definition startswith (p s : string) : bool := String.prefix p s.

(** [all(c in chars for c in s)]. *)
Fixpoint all_in (chars : string) (s : string) : bool :=
  match s with
  | EmptyString => true
  | String a r => contains a chars && all_in chars r
  end.

Definition is_upper (a : ascii) : bool :=
  let n := N_of_ascii a in (65 <=? n) && (n <=? 90).

Definition is_lower (a : ascii) : bool :=
  let n := N_of_ascii a in (97 <=? n) && (n <=? 122).

(** [c.isascii() and c.isalpha()]. *)
Definition is_ascii_alpha (a : ascii) : bool := is_upper a || is_lower a.

(** [s.isascii()]. *)
Fixpoint isascii (s : string) : bool :=
  match s with
  | EmptyString => true
  | String a r => (N_of_ascii a <? 128) && isascii r
  end.

(** [s.lower()] on the letters A-Z. The program only lowers strings of
    ASCII characters (URL schemes, header keywords it wrote itself). *)
Definition lower_char (a : ascii) : ascii :=
  if is_upper a then ascii_of_N (N_of_ascii a + 32) else a.

Fixpoint lower (s : string) : string :=
  match s with
  | EmptyString => EmptyString
  | String a r => String (lower_char a) (lower r)
  end.

(** [str(n)] for a non-negative integer. *)
Definition of_N (n : N) : string :=
  match n with
  | 0 => "0"
  | _ => NilEmpty.string_of_uint (N.to_uint n)
  end.

(** [s in l] for a list of strings. *)
Definition in_list (s : string) (l : list string) : bool :=
  existsb (String.eqb s) l.

(** [c * n]: the string of [n] copies of [c]. *)
Fixpoint repeat (c : ascii) (n : nat) : string :=
  match n with
  | O => EmptyString
  | S k => String c (repeat c k)
  end.

End PyStr.

(** [bytes.hex()]. *)
Module PyBytes.

Definition hex_digit (n : N) : ascii :=
  if n <? 10 then ascii_of_N (48 + n) else ascii_of_N (87 + n).

Definition hex_byte (b : byte) : string :=
  let n := Byte.to_N b in
  String (hex_digit (n / 16)) (String (hex_digit (n mod 16)) EmptyString).

Fixpoint hex (data : list byte) : string :=
  match data with
  | [] => EmptyString
  | b :: r => hex_byte b ++ hex r
  end.

(** [s.encode('UTF-8')] for a string of iso-8859-1 characters. *)
Fixpoint encode_utf8 (s : string) : list byte :=
  match s with
  | EmptyString => []
  | String a r =>
      let n := N_of_ascii a in
      if n <? 128 then byte_of_ascii a :: encode_utf8 r
      else byte_of_ascii (ascii_of_N (192 + n / 64))
           :: byte_of_ascii (ascii_of_N (128 + n mod 64))
           :: encode_utf8 r
  end.

End PyBytes.

(* ===================================================================== *)
(** ** The Python runtime                                                *)
(* ===================================================================== *)

(** What the scripts obtain from the interpreter and the platform and do
    not constrain: how a clock reading is formatted, the server banner, and
    the two host-name validations of [urllib.parse] that need the
    [ipaddress] and [unicodedata] modules. Every theorem below holds for
    every runtime. *)
Class Runtime := {
  (** [time.strftime('%H:%M:%S')] at a clock reading *)
  strftime_HMS : N -> string;
  (** [BaseHTTPRequestHandler.date_time_string()] at a clock reading *)
  date_time_string : N -> string;
  (** [BaseHTTPRequestHandler.version_string()] *)
  version_string : string;
  (** ['%r' % s] for a [str] *)
  repr : string -> string;
  (** [urllib.parse._check_bracketed_netloc] returns without raising *)
  check_bracketed_netloc : string -> bool;
  (** the NFKC comparison of [urllib.parse._checknetloc], reached for a
      netloc that is not ASCII, returns without raising *)
  checknetloc_nfkc : string -> bool
}.

(** Uncaught Python exceptions. *)
Inductive exn : Type :=
| ValueError (message : string).

(** A pure computation that may raise. *)
Inductive pyresult (A : Type) : Type :=
| Value (a : A)
| Raises (e : exn).
Arguments Value {A} a.
Arguments Raises {A} e.

(* ===================================================================== *)
(** ** The effect monad                                                  *)
(* ===================================================================== *)

(** A call returns, raises, or never comes back (a blocking system call
    that nothing will wake up). *)
Inductive outcome (S A : Type) : Type :=
| Ret (a : A) (s : S)
| Raise (e : exn) (s : S)
| Block (s : S).
Arguments Ret {S A} a s.
Arguments Raise {S A} e s.
Arguments Block {S A} s.

Definition M (S A : Type) : Type := S -> outcome S A.

Definition ret {S A} (a : A) : M S A := fun s => Ret a s.

Definition bind {S A B} (m : M S A) (k : A -> M S B) : M S B :=
  fun s =>
    match m s with
    | Ret a s' => k a s'
    | Raise e s' => Raise e s'
    | Block s' => Block s'
    end.

Definition raise {S A} (e : exn) : M S A := fun s => Raise e s.

Definition get {S} : M S S := fun s => Ret s s.
Definition modify {S} (f : S -> S) : M S unit := fun s => Ret tt (f s).

Definition lift_result {S A} (r : pyresult A) : M S A :=
  match r with
  | Value a => ret a
  | Raises e => raise e
  end.

Declare Scope py_scope.
Delimit Scope py_scope with py.
Notation "x <- m ;; k" := (bind m (fun x => k))
  (at level 61, m at next level, right associativity) : py_scope.
Notation "' pat <- m ;; k" := (bind m (fun x => match x with pat => k end))
  (at level 61, pat pattern, m at next level, right associativity) : py_scope.
Notation "m ;; k" := (bind m (fun _ => k))
  (at level 61, right associativity) : py_scope.
Local Open Scope py_scope.

(** The final state of a run, whatever its outcome. *)
Definition final {S A} (o : outcome S A) : S :=
  match o with
  | Ret _ s => s
  | Raise _ s => s
  | Block s => s
  end.

(* ===================================================================== *)
(** ** The world a script runs in                                        *)
(* ===================================================================== *)

(** [now] is the clock in milliseconds; [lag] lists the latency the
    operating system adds to each successive call (nothing once the list is
    used up); [stdout] holds the printed lines; [dev] is the socket or the
    connection of the script. *)
Record World (D : Type) : Type := mkWorld {
  now : N;
  lag : list N;
  stdout : list string;
  dev : D
}.
Arguments mkWorld {D} now lag stdout dev.
Arguments now {D} w.
Arguments lag {D} w.
Arguments stdout {D} w.
Arguments dev {D} w.

Section Primitives.
Context {rt : Runtime} {D : Type}.

Definition set_dev (d : D) (w : World D) : World D :=
  mkWorld (now w) (lag w) (stdout w) d.

(** Every call takes the time the operating system makes it take. *)
Definition tick : M (World D) unit :=
  modify (fun w => mkWorld (now w + hd 0 (lag w)) (tl (lag w)) (stdout w) (dev w)).

(** [time.sleep(secs)], [ms] being [secs] in milliseconds: suspends for
    at least that long. *)
Definition sleep (ms : N) : M (World D) unit :=
  modify (fun w => mkWorld (now w + ms) (lag w) (stdout w) (dev w)) ;;
  tick.

(** [print(line)]. *)
Definition print (line : string) : M (World D) unit :=
  tick ;;
  modify (fun w => mkWorld (now w) (lag w) (stdout w ++ [line]) (dev w)).

(** [time.strftime('%H:%M:%S')]. *)
Definition strftime : M (World D) string :=
  fun w => Ret (strftime_HMS (now w)) w.

Definition get_dev : M (World D) D := fun w => Ret (dev w) w.
Definition put_dev (d : D) : M (World D) unit := modify (set_dev d).

End Primitives.

(* ===================================================================== *)
(** ** [urllib.parse]                                                    *)
(* ===================================================================== *)

Module urllib_parse.
Import PyStr.

Record ParseResult : Type := mkParseResult {
  scheme : string;
  netloc : string;
  path : string;
  params : string;
  query : string;
  fragment : string
}.

Definition uses_params : list string :=
  [""; "ftp"; "hdl"; "prospero"; "http"; "imap";
   "https"; "shttp"; "rtsp"; "rtspu"; "sip"; "sips";
   "mms"; "sftp"; "tel"].

Definition scheme_chars : string :=
  "abcdefghijklmnopqrstuvwxyz" ++ "ABCDEFGHIJKLMNOPQRSTUVWXYZ" ++
  "0123456789" ++ "+-.".

(** The characters [\x00] to [\x1f] and the space. *)
Definition _WHATWG_C0_CONTROL_OR_SPACE : string :=
  string_of_list_ascii (map ascii_of_nat (seq 0 33)).

(** Tab, carriage return, line feed. *)
Definition _UNSAFE_URL_BYTES_TO_REMOVE : list ascii :=
  [ascii_of_nat 9; ascii_of_nat 13; ascii_of_nat 10].

Definition _splitparams (url : string) : string * string :=
  if contains "/" url then
    match find_from ";" (match rfind "/" url with Some j => j | None => O end) url with
    | None => (url, "")
    | Some i => (take i url, drop (i + 1) url)
    end
  else
    match find ";" url with
    | Some i => (take i url, drop (i + 1) url)
    | None => (take (String.length url - 1) url, url)
    end.

Definition _splitnetloc (url : string) (start : nat) : string * string :=
  let delim :=
    fold_left
      (fun delim c =>
         match find_from c start url with
         | Some wdelim => Nat.min delim wdelim
         | None => delim
         end)
      ["/"%char; "?"%char; "#"%char] (String.length url) in
  (take (delim - start) (drop start url), drop delim url).

Section WithRuntime.
Context {rt : Runtime}.

Definition _checknetloc (netloc : string) : pyresult unit :=
  if (String.eqb netloc "" || isascii netloc)%bool then Value tt
  else if checknetloc_nfkc netloc then Value tt
  else Raises (ValueError "netloc contains invalid characters under NFKC normalization").

(** The bracket checks [urlsplit] makes on a netloc. *)
Definition check_brackets (netloc : string) : pyresult unit :=
  if ((contains "[" netloc && negb (contains "]" netloc))
      || (contains "]" netloc && negb (contains "[" netloc)))%bool
  then Raises (ValueError "Invalid IPv6 URL")
  else if (contains "[" netloc && contains "]" netloc)%bool
  then if check_bracketed_netloc netloc then Value tt
       else Raises (ValueError "Invalid IPv6 URL")
  else Value tt.

(** The stages of [urlsplit(url)], called with the default [scheme='']
    and [allow_fragments=True]. First the leading control characters
    and spaces are stripped and tabs and line ends removed. *)
Definition strip_unsafe (url : string) : string :=
  let url := lstrip _WHATWG_C0_CONTROL_OR_SPACE url in
  fold_left (fun u b => remove b u) _UNSAFE_URL_BYTES_TO_REMOVE url.

(** Then a scheme is split off: scheme and rest. *)
Definition split_scheme (url : string) : string * string :=
  match find ":" url, url with
  | Some (S _ as i), String c0 _ =>
      if (is_ascii_alpha c0 && all_in scheme_chars (take i url))%bool
      then (lower (take i url), drop (i + 1) url)
      else ("", url)
  | _, _ => ("", url)
  end.

(** Then a network location after [//]: netloc and rest. *)
Definition split_netloc (url : string) : pyresult (string * string) :=
  if String.eqb (take 2 url) "//" then
    let '(netloc, url) := _splitnetloc url 2 in
    match check_brackets netloc with
    | Value _ => Value (netloc, url)
    | Raises e => Raises e
    end
  else Value ("", url).

(** Then the fragment and the query: path, query, fragment. *)
Definition split_fragment_query (url : string) : string * string * string :=
  let '(url, fragment) :=
    if contains "#" url then split1 "#" url else (url, "") in
  let '(url, query) :=
    if contains "?" url then split1 "?" url else (url, "") in
  (url, query, fragment).

(** [urlsplit(url)]: scheme, netloc, path, query, fragment. *)
Definition urlsplit (url : string)
  : pyresult (string * string * string * string * string) :=
  let '(scheme, url) := split_scheme (strip_unsafe url) in
  match split_netloc url with
  | Raises e => Raises e
  | Value (netloc, url) =>
      let '(url, query, fragment) := split_fragment_query url in
      match _checknetloc netloc with
      | Raises e => Raises e
      | Value _ => Value (scheme, netloc, url, query, fragment)
      end
  end.

(** [urlparse(url)]. *)
Definition urlparse (url : string) : pyresult ParseResult :=
  match urlsplit url with
  | Raises e => Raises e
  | Value (scheme, netloc, url, query, fragment) =>
      let '(url, params) :=
        if (in_list scheme uses_params && contains ";" url)%bool
        then _splitparams url
        else (url, "") in
      Value (mkParseResult scheme netloc url params query fragment)
  end.

End WithRuntime.
End urllib_parse.


(* ===================================================================== *)
(** ** [http.server]                                                     *)
(* ===================================================================== *)

Module http_server.
Import PyStr.

(** A request as [parse_request] leaves it in the attributes of the
    handler once it has accepted an HTTP/1.x request line. *)
Record Request : Type := mkRequest {
  requestline : string;
  command : string;
  path : string;
  headers : list (string * string);
  rfile : list byte;              (* what follows the headers *)
  client_address : string * N
}.

(** What goes down the connection, one item per piece the handler
    formats. *)
Inductive wire : Type :=
| StatusLine (protocol_version : string) (code : N) (message : string)
| HeaderLine (keyword value : string)
| BlankLine
| Data (b : list byte).

(** The attributes of a handler instance. *)
Record Handler : Type := mkHandler {
  request : Request;
  _headers_buffer : list wire;
  wfile : list wire;
  close_connection : bool
}.

Definition protocol_version : string := "HTTP/1.0".
Definition error_content_type : string := "text/html;charset=utf-8".

(** [responses[code]], for the codes this server sends. *)
Definition responses (code : N) : option (string * string) :=
  match code with
  | 200 => Some ("OK", "Request fulfilled, document follows")
  | 404 => Some ("Not Found", "Nothing matches the given URI")
  | 501 => Some ("Not Implemented", "Server does not support this operation")
  | _ => None
  end.

Definition dq : string := String (ascii_of_nat 34) EmptyString.
Definition nl : string := String (ascii_of_nat 10) EmptyString.

(** [html.escape(s, quote=False)]. *)
Definition html_escape (s : string) : string :=
  replace ">" "&gt;" (replace "<" "&lt;" (replace "&" "&amp;" s)).

(** [error_message_format % {'code': .., 'message': .., 'explain': ..}]. *)
Definition error_message_format (code : N) (message explain : string) : string :=
  "<!DOCTYPE HTML>" ++ nl ++
  "<html lang=" ++ dq ++ "en" ++ dq ++ ">" ++ nl ++
  "    <head>" ++ nl ++
  "        <meta charset=" ++ dq ++ "utf-8" ++ dq ++ ">" ++ nl ++
  "        <title>Error response</title>" ++ nl ++
  "    </head>" ++ nl ++
  "    <body>" ++ nl ++
  "        <h1>Error response</h1>" ++ nl ++
  "        <p>Error code: " ++ of_N code ++ "</p>" ++ nl ++
  "        <p>Message: " ++ message ++ ".</p>" ++ nl ++
  "        <p>Error code explanation: " ++ of_N code ++ " - " ++ explain ++ ".</p>" ++ nl ++
  "    </body>" ++ nl ++
  "</html>" ++ nl.

Definition set_buffer (b : list wire) (h : Handler) : Handler :=
  mkHandler (request h) b (wfile h) (close_connection h).
Definition set_wfile (f : list wire) (h : Handler) : Handler :=
  mkHandler (request h) (_headers_buffer h) f (close_connection h).
Definition set_close_connection (c : bool) (h : Handler) : Handler :=
  mkHandler (request h) (_headers_buffer h) (wfile h) c.

Section BaseHTTPRequestHandler.
Context {rt : Runtime}.

Local Abbreviation handler := (M (World Handler)).

(** The methods a subclass overrides. *)
Variable log_message : string -> list string -> handler unit.

Definition self : handler Handler := get_dev.

Definition log_request (code : N) : handler unit :=
  h <- self ;;
  log_message (dq ++ "%s" ++ dq ++ " %s %s")
              [requestline (request h); of_N code; "-"].

Definition log_error (format : string) (args : list string) : handler unit :=
  log_message format args.

Definition send_response_only (code : N) (message : option string) : handler unit :=
  let message :=
    match message with
    | Some m => m
    | None => match responses code with Some (phrase, _) => phrase | None => "" end
    end in
  h <- self ;;
  put_dev (set_buffer (_headers_buffer h ++ [StatusLine protocol_version code message]) h).

Definition send_header (keyword value : string) : handler unit :=
  h <- self ;;
  put_dev (set_buffer (_headers_buffer h ++ [HeaderLine keyword value]) h) ;;
  if String.eqb (lower keyword) "connection" then
    if String.eqb (lower value) "close" then
      h <- self ;; put_dev (set_close_connection true h)
    else if String.eqb (lower value) "keep-alive" then
      h <- self ;; put_dev (set_close_connection false h)
    else ret tt
  else ret tt.

Definition send_response (code : N) (message : option string) : handler unit :=
  log_request code ;;
  send_response_only code message ;;
  send_header "Server" version_string ;;
  w <- get ;;
  send_header "Date" (date_time_string (now w)).

(** [self.wfile.write(data)]: the stream is unbuffered, each write is
    a send on the connection. *)
Definition wfile_write (data : list wire) : handler unit :=
  tick ;;
  h <- self ;;
  put_dev (set_wfile (wfile h ++ data) h).

Definition flush_headers : handler unit :=
  h <- self ;;
  wfile_write (_headers_buffer h) ;;
  h <- self ;;
  put_dev (set_buffer [] h).

Definition end_headers : handler unit :=
  h <- self ;;
  put_dev (set_buffer (_headers_buffer h ++ [BlankLine]) h) ;;
  flush_headers.

Definition send_error (code : N) (message explain : option string) : handler unit :=
  let '(shortmsg, longmsg) :=
    match responses code with Some r => r | None => ("???", "???") end in
  let message := match message with Some m => m | None => shortmsg end in
  let explain := match explain with Some e => e | None => longmsg end in
  log_error "code %d, message %s" [of_N code; message] ;;
  send_response code (Some message) ;;
  send_header "Connection" "close" ;;
  body <-
    (if ((200 <=? code) && negb (existsb (N.eqb code) [204; 205; 304]))%bool then
       let content :=
         error_message_format code (html_escape message) (html_escape explain) in
       let body := PyBytes.encode_utf8 content in
       send_header "Content-Type" error_content_type ;;
       send_header "Content-Length" (of_N (N.of_nat (List.length body))) ;;
       ret (Some body)
     else ret None) ;;
  end_headers ;;
  h <- self ;;
  match body with
  | Some ((_ :: _) as body) =>
      if negb (String.eqb (command (request h)) "HEAD")
      then wfile_write [Data body]
      else ret tt
  | _ => ret tt
  end.

(** [handle_one_request], from the point where [parse_request] has
    succeeded. [getattr mname] is the method of the handler called
    [mname], when the class has one. The closing [self.wfile.flush()] has
    nothing left to send on the unbuffered stream. *)
Definition handle_one_request
    (getattr : string -> option (handler unit)) : handler unit :=
  h <- self ;;
  let mname := "do_" ++ command (request h) in
  match getattr mname with
  | None =>
      send_error 501
        (Some ("Unsupported method (" ++ repr (command (request h)) ++ ")")) None
  | Some method => method
  end.

End BaseHTTPRequestHandler.

(** *** What a client reads off the connection *)

(** The status code: that of the status line the response starts with. *)
Definition status_of (out : list wire) : option N :=
  match out with
  | StatusLine _ code _ :: _ => Some code
  | _ => None
  end.

(** The header fields: the header lines up to the first blank line. *)
Fixpoint header_fields (out : list wire) : list (string * string) :=
  match out with
  | HeaderLine k v :: r => (k, v) :: header_fields r
  | StatusLine _ _ _ :: r => header_fields r
  | _ => []
  end.

(** The body: the data after the first blank line. *)
Fixpoint data_of (out : list wire) : list byte :=
  match out with
  | Data b :: r => b ++ data_of r
  | _ :: r => data_of r
  | [] => []
  end.

Fixpoint body_of (out : list wire) : list byte :=
  match out with
  | BlankLine :: r => data_of r
  | _ :: r => body_of r
  | [] => []
  end.

Definition has_header (k v : string) (out : list wire) : Prop :=
  In (k, v) (header_fields out).

(** *** [HTTPServer] *)

(** The server state: what each connection handled so far received. *)
Definition Server : Type := World (list (list wire)).

(** One connection: a fresh handler instance answers the request; what it
    raises is reported and the connection closed; the server goes on. *)
Definition process_request
    (handle : M (World Handler) unit) (w : Server) (req : Request) : Server :=
  let h := mkHandler req [] [] true in
  let w' := final (handle (mkWorld (now w) (lag w) (stdout w) h)) in
  mkWorld (now w') (lag w') (stdout w') (dev w ++ [wfile (dev w')])%list.

(** [serve_forever] on the requests that come in, one at a time. *)
Definition serve_forever
    (handle : M (World Handler) unit) (incoming : list Request) (w : Server) : Server :=
  fold_left (process_request handle) incoming w.

End http_server.

(* ===================================================================== *)
(** ** [gatekeeper-pwa/scripts/api-simulator.py]                         *)
(* ===================================================================== *)

Module api_simulator.
Import PyStr http_server.

Section GatekeeperAPIHandler.
Context {rt : Runtime}.

Local Abbreviation handler := (M (World Handler)).

(** [log_message]: [pass]. *)
Definition log_message (format : string) (args : list string) : handler unit :=
  ret tt.

Definition send_cors_headers : handler unit :=
  send_header "Access-Control-Allow-Origin" "*" ;;
  send_header "Access-Control-Allow-Methods" "POST, OPTIONS" ;;
  send_header "Access-Control-Allow-Headers" "Content-Type".

Definition handle_trigger : handler unit :=
  h <- self ;;
  ts <- strftime ;;
  print ("[" ++ ts ++ "] Gate trigger received from "
             ++ fst (client_address (request h))) ;;
  sleep 100 ;;
  send_response log_message 200 None ;;
  send_cors_headers ;;
  send_header "Content-Type" "text/plain" ;;
  end_headers ;;
  wfile_write [Data [x4f; x4b]] ;;
  ts <- strftime ;;
  print ("[" ++ ts ++ "] Gate trigger response sent: 200 OK").

Definition do_POST : handler unit :=
  h <- self ;;
  parsed_path <- lift_result (urllib_parse.urlparse (path (request h))) ;;
  if String.eqb (urllib_parse.path parsed_path) "/trigger" then
    handle_trigger
  else
    send_error log_message 404 (Some "Endpoint not found") None.

Definition do_OPTIONS : handler unit :=
  send_response log_message 200 None ;;
  send_cors_headers ;;
  end_headers.

(** The [do_*] methods of the class. *)
Definition getattr (mname : string) : option (handler unit) :=
  if String.eqb mname "do_POST" then Some do_POST
  else if String.eqb mname "do_OPTIONS" then Some do_OPTIONS
  else None.

(** The handler class at work on one request. *)
Definition GatekeeperAPIHandler : handler unit :=
  handle_one_request log_message getattr.

(** What the client of one request reads, in a given world. *)
Definition respond (req : Request) (w : World unit) : list wire :=
  wfile (dev (final (GatekeeperAPIHandler
                       (mkWorld (now w) (lag w) (stdout w)
                                (mkHandler req [] [] true))))).

(** [main], on the requests that come in before the interrupt. *)
Definition main (host : string) (port : N) (incoming : list Request)
  : M Server unit :=
  print "🚪 Gatekeeper ESP32 API Simulator" ;;
  print (repeat "=" 40) ;;
  print ("Server running at: http://" ++ host ++ ":" ++ of_N port) ;;
  print ("Trigger endpoint: http://" ++ host ++ ":" ++ of_N port ++ "/trigger") ;;
  print "Configure your PWA to use this host:port" ;;
  print "Press Ctrl+C to stop" ;;
  print (repeat "=" 40) ;;
  modify (serve_forever GatekeeperAPIHandler incoming).

End GatekeeperAPIHandler.
End api_simulator.


(* ===================================================================== *)
(** ** [scripts/udpServerSim.py]                                         *)
(* ===================================================================== *)

Module socket.

(** An [AF_INET] address: host and port. *)
Definition address : Type := string * N.

(** A datagram on its way to the socket: when it reaches the receive
    queue, what it carries, who sent it. *)
Record datagram : Type := mkDatagram {
  arrival : N;
  payload : list byte;
  sender : address
}.

(** What happens at the socket, with the clock reading. *)
Inductive event : Type :=
| Recvd (time : N) (data : list byte) (addr : address)
| Sent (time : N) (data : list byte) (addr : address).

(** A [SOCK_DGRAM] socket: the address it is bound to, the datagrams
    still to be read in the order they arrive, and what happened so far. *)
Record Socket : Type := mkSocket {
  bound : option address;
  inbox : list datagram;
  events : list event
}.

Section Calls.
Context {rt : Runtime}.

Local Abbreviation io := (M (World Socket)).

(** [sock.bind(addr)]. *)
Definition bind_ (addr : address) : io unit :=
  tick ;;
  s <- get_dev ;;
  put_dev (mkSocket (Some addr) (inbox s) (events s)).

(** [sock.recvfrom(bufsize)]: waits for the next datagram, for ever
    when none is to come; returns at most [bufsize] bytes of it (the rest
    of a longer datagram is dropped) and the address of its sender. *)
Definition recvfrom (bufsize : nat) : io (list byte * address) :=
  s <- get_dev ;;
  match inbox s with
  | [] => fun w => Block w
  | d :: rest =>
      modify (fun w => mkWorld (N.max (now w) (arrival d)) (lag w) (stdout w) (dev w)) ;;
      tick ;;
      w <- get ;;
      let data := firstn bufsize (payload d) in
      put_dev (mkSocket (bound s) rest
                        (events s ++ [Recvd (now w) data (sender d)])) ;;
      ret (data, sender d)
  end.

(** [sock.sendto(data, addr)]. *)
Definition sendto (data : list byte) (addr : address) : io nat :=
  tick ;;
  w <- get ;;
  let s := dev w in
  put_dev (mkSocket (bound s) (inbox s) (events s ++ [Sent (now w) data addr])) ;;
  ret (List.length data).

(** [str(addr)] for the tuple [(host, port)]. *)
Definition str_address (addr : address) : string :=
  "(" ++ repr (fst addr) ++ ", " ++ PyStr.of_N (snd addr) ++ ")".

End Calls.
End socket.

(** The first [n] rounds of [while True: body]. *)
Fixpoint while_True {S : Type} (n : nat) (body : M S unit) : M S unit :=
  match n with
  | O => ret tt
  | Datatypes.S k => body ;; while_True k body
  end.

Module udpServerSim.
Import PyStr socket.

Definition HOST : string := "".
Definition PORT : N := 8050.

Section Script.
Context {rt : Runtime}.

(** The body of the receive loop. *)
Definition loop_body : M (World Socket) unit :=
  ' (data, addr) <- recvfrom 1024 ;;
  ts <- strftime ;;
  print ("[" ++ ts ++ "] 📥 Trigger from " ++ str_address addr ++ ": "
             ++ PyBytes.hex data) ;;
  (* 1) activated *)
  sendto [x01] addr ;;
  ts <- strftime ;;
  print ("[" ++ ts ++ "] 📤 Sent 0x01 (activated) → " ++ str_address addr) ;;
  (* 2) released after 1 s *)
  sleep 500 ;;
  sendto [x00] addr ;;
  ts <- strftime ;;
  print ("[" ++ ts ++ "] 📤 Sent 0x00 (released)  → " ++ str_address addr) ;;
  print (repeat "-" 45).

(** The script, for the first [n] rounds of its loop. *)
Definition main (n : nat) : M (World Socket) unit :=
  bind_ (HOST, PORT) ;;
  print ("[UDP-SIM] 📡 Listening on " ++ of_N PORT ++ " …") ;;
  while_True n loop_body.

End Script.
End udpServerSim.

(* ===================================================================== *)
(** ** Vocabulary of the specification                                   *)
(* ===================================================================== *)

Import http_server api_simulator socket udpServerSim.

(** *** UDP responder *)

(** The datagrams sent, with the time of sending, in the order sent. *)
Fixpoint sends (es : list event) : list (N * list byte * address) :=
  match es with
  | [] => []
  | Sent t data addr :: r => (t, data, addr) :: sends r
  | Recvd _ _ _ :: r => sends r
  end.

(** Each sender in turn gets [0x01], then [0x00] at least 500 ms later, and
    nothing else is sent. *)
Inductive two_step_replies : list address -> list (N * list byte * address) -> Prop :=
| replies_done : two_step_replies [] []
| replies_next (a : address) (senders : list address) (t1 t2 : N)
               (rest : list (N * list byte * address)) :
    t1 + 500 <= t2 ->
    two_step_replies senders rest ->
    two_step_replies (a :: senders) ((t1, [x01], a) :: (t2, [x00], a) :: rest).

(** The trace of the socket while the datagrams [ds] are served one after
    the other from clock reading [t0] on: each is read, answered [0x01],
    answered [0x00] at least 500 ms later, and only then the next is read. *)
Inductive served : N -> list datagram -> list event -> Prop :=
| served_none (t0 : N) : served t0 [] []
| served_next (t0 : N) (d : datagram) (ds : list datagram)
              (tr t1 t2 : N) (es : list event) :
    N.max t0 (arrival d) <= tr -> tr <= t1 -> t1 + 500 <= t2 ->
    served t2 ds es ->
    served t0 (d :: ds)
           (Recvd tr (firstn 1024 (payload d)) (sender d)
              :: Sent t1 [x01] (sender d)
              :: Sent t2 [x00] (sender d) :: es).

(** The replies that follow a receive, up to the next receive. *)
Fixpoint replies_until_recv (es : list event) : list (list byte * address) :=
  match es with
  | Sent _ data addr :: r => (data, addr) :: replies_until_recv r
  | _ => []
  end.

(** The reply sequence of each trigger cycle, in order. *)
Fixpoint cycles (es : list event) : list (list (list byte * address)) :=
  match es with
  | [] => []
  | Recvd _ _ _ :: r => replies_until_recv r :: cycles r
  | Sent _ _ _ :: r => cycles r
  end.

(** A runtime and worlds to evaluate the model on concrete inputs. *)
Definition sample_runtime : Runtime := {|
  strftime_HMS := fun t => PyStr.of_N (t / 1000);
  date_time_string := fun t => PyStr.of_N (t / 1000);
  version_string := "BaseHTTP/0.6 Python/3.11.2";
  repr := fun s => "'" ++ s ++ "'";
  check_bracketed_netloc := fun _ => true;
  checknetloc_nfkc := fun _ => true
|}.

Definition alice : address := ("10.0.0.7", 4242).
Definition bob : address := ("10.0.0.8", 4243).

(** Two triggers 10 ms apart: the second arrives while the first is being
    answered. *)
Definition sample_socket : World Socket :=
  mkWorld 0 [3; 4] []
          (mkSocket None [mkDatagram 10 [xde; xad] alice; mkDatagram 20 [] bob] []).

(** *** HTTP responder *)

(** The three CORS header fields [send_cors_headers] writes. *)
Definition cors_headers (out : list wire) : Prop :=
  has_header "Access-Control-Allow-Origin" "*" out /\
  has_header "Access-Control-Allow-Methods" "POST, OPTIONS" out /\
  has_header "Access-Control-Allow-Headers" "Content-Type" out.

(** No header field of the CORS family, whatever the case of its name. *)
Definition no_cors_header (out : list wire) : Prop :=
  forall k v : string,
    has_header k v out ->
    PyStr.startswith "access-control-" (PyStr.lower k) = false.

(** The path of a request target in origin form: what comes before the
    first ['?'] or ['#'] (RFC 3986, section 3). *)
Fixpoint target_path (target : string) : string :=
  match target with
  | EmptyString => EmptyString
  | String c r =>
      if (Ascii.eqb c "?" || Ascii.eqb c "#")%bool then EmptyString
      else String c (target_path r)
  end.

(** A trigger: a POST that [do_POST] hands to [handle_trigger]. *)
Definition is_trigger {rt : Runtime} (req : Request) : Prop :=
  command req = "POST" /\
  exists r : urllib_parse.ParseResult,
    urllib_parse.urlparse (path req) = Value r /\ urllib_parse.path r = "/trigger".

(** A request the handler has no success path for: a POST to another path,
    or a method the class has no [do_] method for. *)
Definition unserved {rt : Runtime} (req : Request) : Prop :=
  (command req = "POST" /\
   exists r : urllib_parse.ParseResult,
     urllib_parse.urlparse (path req) = Value r /\ urllib_parse.path r <> "/trigger")
  \/ (command req <> "POST" /\ command req <> "OPTIONS").

(** The reply to a trigger, [date] being the text of the [Date] field. *)
Definition trigger_response {rt : Runtime} (date : string) : list wire :=
  [StatusLine protocol_version 200 "OK";
   HeaderLine "Server" version_string;
   HeaderLine "Date" date;
   HeaderLine "Access-Control-Allow-Origin" "*";
   HeaderLine "Access-Control-Allow-Methods" "POST, OPTIONS";
   HeaderLine "Access-Control-Allow-Headers" "Content-Type";
   HeaderLine "Content-Type" "text/plain";
   BlankLine;
   Data [x4f; x4b]].

(** The reply to a preflight. *)
Definition preflight_response {rt : Runtime} (date : string) : list wire :=
  [StatusLine protocol_version 200 "OK";
   HeaderLine "Server" version_string;
   HeaderLine "Date" date;
   HeaderLine "Access-Control-Allow-Origin" "*";
   HeaderLine "Access-Control-Allow-Methods" "POST, OPTIONS";
   HeaderLine "Access-Control-Allow-Headers" "Content-Type";
   BlankLine].

(** The reply [send_error] writes for a code that carries a body. *)
Definition error_response {rt : Runtime}
    (date : string) (code : N) (message explain : string) (head_request : bool)
  : list wire :=
  let body :=
    PyBytes.encode_utf8
      (error_message_format code (html_escape message) (html_escape explain)) in
  [StatusLine protocol_version code message;
   HeaderLine "Server" version_string;
   HeaderLine "Date" date;
   HeaderLine "Connection" "close";
   HeaderLine "Content-Type" error_content_type;
   HeaderLine "Content-Length" (PyStr.of_N (N.of_nat (List.length body)));
   BlankLine]
  ++ (if head_request then [] else [Data body])%list.

(** A response with the clock reading of its [Date] field blanked. *)
Definition undated (out : list wire) : list wire :=
  map (fun x =>
         match x with
         | HeaderLine k v => if String.eqb k "Date" then HeaderLine k "" else x
         | _ => x
         end) out.

Definition localhost : string * N := ("127.0.0.1", 50000).

Definition post_trigger : Request :=
  mkRequest "POST /trigger HTTP/1.1" "POST" "/trigger"
            [("Content-Type", "application/json")] [x7b; x7d] localhost.

Definition post_trigger_query : Request :=
  mkRequest "POST /trigger?x=1 HTTP/1.1" "POST" "/trigger?x=1" [] [] localhost.

Definition post_elsewhere : Request :=
  mkRequest "POST /status HTTP/1.1" "POST" "/status" [] [] localhost.

Definition get_trigger : Request :=
  mkRequest "GET /trigger HTTP/1.1" "GET" "/trigger" [] [] localhost.

Definition options_any : Request :=
  mkRequest "OPTIONS /anything HTTP/1.1" "OPTIONS" "/anything" [] [] localhost.

Definition sample_world : World unit := mkWorld 0 [3; 4] [] tt.

(** Requests that come in one after the other, and a server that has
    served nothing yet. *)
Definition sample_incoming : list Request :=
  [post_trigger; options_any; get_trigger; post_trigger_query].

Definition sample_server : Server := mkWorld 0 [3; 4] [] [].

(** Three triggers, the first and the last from the same sender. *)
Definition sample_socket3 : World Socket :=
  mkWorld 0 [] []
          (mkSocket None
                    [mkDatagram 10 [xde; xad] alice;
                     mkDatagram 20 [] bob;
                     mkDatagram 5000 [x01; x02; x03] alice] []).

(** *** Logs and whole runs *)

(** The handler instance at the end of its work on a request taken in the
    world [w]. *)
Definition handled {rt : Runtime} (req : Request) (w : World unit)
  : outcome (World Handler) unit :=
  GatekeeperAPIHandler (mkWorld (now w) (lag w) (stdout w) (mkHandler req [] [] true)).

(** The two lines [handle_trigger] prints, [ts1] and [ts2] being the two
    time stamps and [ip] the host of the client. *)
Definition trigger_log (ts1 ts2 ip : string) : list string :=
  ["[" ++ ts1 ++ "] Gate trigger received from " ++ ip;
   "[" ++ ts2 ++ "] Gate trigger response sent: 200 OK"].


(** The four lines one round of the UDP loop prints. *)
Definition round_log {rt : Runtime}
    (ts1 ts2 ts3 : string) (addr : address) (data : list byte) : list string :=
  ["[" ++ ts1 ++ "] 📥 Trigger from " ++ str_address addr ++ ": " ++ PyBytes.hex data;
   "[" ++ ts2 ++ "] 📤 Sent 0x01 (activated) → " ++ str_address addr;
   "[" ++ ts3 ++ "] 📤 Sent 0x00 (released)  → " ++ str_address addr;
   PyStr.repeat "-" 45].

(** The test [do_POST] makes, as a boolean: a POST whose target parses to
    the path [/trigger]. *)
Definition is_triggerb {rt : Runtime} (req : Request) : bool :=
  (String.eqb (command req) "POST" &&
   match urllib_parse.urlparse (path req) with
   | Value r => String.eqb (urllib_parse.path r) "/trigger"
   | Raises _ => false
   end)%bool.

(** The line the UDP simulator prints once its socket is bound. *)
Definition listening_line : string := "[UDP-SIM] 📡 Listening on 8050 …".

(** A socket with one trigger pending. *)
Definition sample_socket1 : World Socket :=
  mkWorld 7 [] [] (mkSocket None [mkDatagram 10 [xde; xad] alice] []).

(** A POST whose target carries path parameters. *)
Definition post_trigger_params : Request :=
  mkRequest "POST /trigger;v=2 HTTP/1.1" "POST" "/trigger;v=2" [] [] localhost.

(** A POST whose target [urlparse] rejects. *)
Definition post_bad_target : Request :=
  mkRequest "POST http://[/trigger HTTP/1.1" "POST" "http://[/trigger" [] [] localhost.

Local Open Scope list_scope.

(* ===================================================================== *)
(** ** Evaluation                                                        *)
(* ===================================================================== *)

Ltac run_py :=
  cbv beta iota zeta delta
    [bind ret raise modify get get_dev put_dev set_dev lift_result final
     tick sleep print strftime
     recvfrom sendto bind_ loop_body
     self log_request log_error send_response_only send_header send_response
     wfile_write flush_headers end_headers send_error handle_one_request
     set_buffer set_wfile set_close_connection
     log_message send_cors_headers handle_trigger do_OPTIONS
     GatekeeperAPIHandler respond process_request
     request _headers_buffer wfile close_connection
     now lag stdout dev bound inbox events fst snd].

(* ===================================================================== *)
(** ** The UDP trigger responder                                         *)
(* ===================================================================== *)

(* ===================================================================== *)
(** ** The model at work                                                 *)
(* ===================================================================== *)

Example urlparse_query_fragment :
  urllib_parse.urlparse (rt := sample_runtime) "/trigger?x=1#f" =
    Value (urllib_parse.mkParseResult "" "" "/trigger" "" "x=1" "f").
Proof. reflexivity. Qed.

Example urlparse_params :
  urllib_parse.urlparse (rt := sample_runtime) "/trigger;p=2?x=1#f" =
    Value (urllib_parse.mkParseResult "" "" "/trigger" "p=2" "x=1" "f").
Proof. reflexivity. Qed.

Example urlparse_absolute :
  urllib_parse.urlparse (rt := sample_runtime)
      "http://user@host:80/a/b;c/trigger;p?x=1#f" =
    Value (urllib_parse.mkParseResult "http" "user@host:80" "/a/b;c/trigger" "p" "x=1" "f").
Proof. reflexivity. Qed.

Example urlparse_fragment_first :
  urllib_parse.urlparse (rt := sample_runtime) "/trigger#a?b" =
    Value (urllib_parse.mkParseResult "" "" "/trigger" "" "" "a?b").
Proof. reflexivity. Qed.

Example urlparse_no_scheme :
  urllib_parse.urlparse (rt := sample_runtime) "1a:b" =
    Value (urllib_parse.mkParseResult "" "" "1a:b" "" "" "").
Proof. reflexivity. Qed.

Example urlparse_bad_bracket :
  urllib_parse.urlparse (rt := sample_runtime) "HtTp://[::1/trigger" =
    Raises (ValueError "Invalid IPv6 URL").
Proof. reflexivity. Qed.

Example post_trigger_response :
  respond (rt := sample_runtime) post_trigger sample_world =
    [StatusLine "HTTP/1.0" 200 "OK";
     HeaderLine "Server" "BaseHTTP/0.6 Python/3.11.2";
     HeaderLine "Date" "0";
     HeaderLine "Access-Control-Allow-Origin" "*";
     HeaderLine "Access-Control-Allow-Methods" "POST, OPTIONS";
     HeaderLine "Access-Control-Allow-Headers" "Content-Type";
     HeaderLine "Content-Type" "text/plain";
     BlankLine;
     Data [x4f; x4b]].
Proof. reflexivity. Qed.

Example post_bad_target_no_response :
  respond (rt := sample_runtime)
          (mkRequest "POST http://[/trigger HTTP/1.1" "POST" "http://[/trigger"
                     [] [] localhost) sample_world = [].
Proof. reflexivity. Qed.

Example udp_two_triggers :
  udpServerSim.main (rt := sample_runtime) 5 sample_socket =
    Block (mkWorld 1010 []
             ["[UDP-SIM] 📡 Listening on 8050 …";
              "[0] 📥 Trigger from ('10.0.0.7', 4242): dead";
              "[0] 📤 Sent 0x01 (activated) → ('10.0.0.7', 4242)";
              "[0] 📤 Sent 0x00 (released)  → ('10.0.0.7', 4242)";
              "---------------------------------------------";
              "[0] 📥 Trigger from ('10.0.0.8', 4243): ";
              "[0] 📤 Sent 0x01 (activated) → ('10.0.0.8', 4243)";
              "[1] 📤 Sent 0x00 (released)  → ('10.0.0.8', 4243)";
              "---------------------------------------------"]%string
             (mkSocket (Some ("", 8050))%string []
                [Recvd 10 [xde; xad] alice; Sent 10 [x01] alice; Sent 510 [x00] alice;
                 Recvd 510 [] bob; Sent 510 [x01] bob; Sent 1010 [x00] bob])).
Proof. reflexivity. Qed.

Lemma string_app_assoc (s1 s2 s3 : string) :
  ((s1 ++ s2) ++ s3 = s1 ++ (s2 ++ s3))%string.
Proof.
  induction s1 as [|c s1 IH]; cbn; [reflexivity|]. rewrite IH. reflexivity.
Qed.

Section UdpResponder.
Context {rt : Runtime}.

(** With nothing to receive the loop body never gets past [recvfrom]. *)
Lemma loop_body_blocks (w : World Socket) :
  inbox (dev w) = [] -> loop_body w = Block w.
Proof.
  destruct w as [t l out [b inb evs]]; cbn; intros ->. reflexivity.
Qed.

(** One round of the loop on a pending datagram. *)
Lemma loop_body_run (w : World Socket) (d : datagram) (rest : list datagram) :
  inbox (dev w) = d :: rest ->
  exists (w' : World Socket) (tr t1 t2 : N),
    loop_body w = Ret tt w' /\
    N.max (now w) (arrival d) <= tr /\ tr <= t1 /\ t1 + 500 <= t2 /\
    t2 <= now w' /\
    inbox (dev w') = rest /\
    bound (dev w') = bound (dev w) /\
    events (dev w') =
      events (dev w) ++ [Recvd tr (firstn 1024 (payload d)) (sender d);
                         Sent t1 [x01] (sender d);
                         Sent t2 [x00] (sender d)].
Proof.
  destruct w as [t l out [b inb evs]]; cbn; intros ->.
  run_py.
  do 4 eexists. split; [reflexivity|].
  cbn [now dev inbox bound events].
  repeat rewrite <- app_assoc. cbn [app].
  repeat split; try reflexivity; lia.
Qed.

Lemma served_weaken (t0 t0' : N) ds es :
  served t0 ds es -> t0' <= t0 -> served t0' ds es.
Proof.
  intros H Hle. destruct H; constructor; try assumption. lia.
Qed.

(** The loop on a queue of datagrams: every one is served in turn, then
    the loop waits in [recvfrom]. *)
Lemma while_True_serves (ds : list datagram) :
  forall (w : World Socket) (k : nat),
    inbox (dev w) = ds ->
    exists (w' : World Socket) (new : list event),
      while_True (List.length ds + S k) loop_body w = Block w' /\
      inbox (dev w') = [] /\
      events (dev w') = events (dev w) ++ new /\
      served (now w) ds new.
Proof.
  induction ds as [|d ds IH]; intros w k Hin.
  - exists w, []. cbn [List.length Nat.add while_True]. unfold bind.
    rewrite (loop_body_blocks w Hin), app_nil_r.
    repeat split; try assumption. constructor.
  - destruct (loop_body_run w Hin)
      as (w1 & tr & t1 & t2 & Hrun & Htr & Ht1 & Ht2 & Hnow & Hin1 & _ & Hev).
    destruct (IH w1 k Hin1) as (w' & new & Hloop & Hend & Hev' & Hserved).
    exists w'. eexists.
    cbn [List.length Nat.add while_True]. unfold bind at 1. rewrite Hrun.
    split; [exact Hloop|]. split; [exact Hend|].
    rewrite Hev', Hev, <- app_assoc. split; [reflexivity|].
    cbn [app]. constructor; try assumption.
    apply served_weaken with (t0 := now w1); assumption.
Qed.

Lemma served_sends (t0 : N) ds es :
  served t0 ds es -> two_step_replies (map sender ds) (sends es).
Proof.
  induction 1; cbn; constructor; assumption.
Qed.

Lemma sends_app (es es' : list event) :
  sends (es ++ es') = sends es ++ sends es'.
Proof.
  induction es as [|[t d a|t d a] es IH]; cbn; rewrite ?IH; reflexivity.
Qed.

Lemma served_cycles (t0 : N) ds es :
  served t0 ds es ->
  cycles es = map (fun d => [([x01], sender d); ([x00], sender d)]) ds.
Proof.
  induction 1 as [|t0 d ds tr t1 t2 es H1 H2 H3 Hs IH]; [reflexivity|].
  cbn. rewrite IH. f_equal. destruct Hs; reflexivity.
Qed.

(** C1. Every inbound datagram gets exactly two replies, sent to its
    sender: the byte 0x01, then the byte 0x00, the second no earlier than
    500 ms (the delay slept) after the first. Whatever the queue of
    inbound datagrams, the loop answers them all in this way, sends
    nothing else, and then waits in [recvfrom]. *)
Theorem udp_two_replies_per_datagram (w : World Socket) (k : nat) :
  exists (w' : World Socket) (new : list (N * list byte * address)),
    while_True (List.length (inbox (dev w)) + S k) loop_body w = Block w' /\
    inbox (dev w') = [] /\
    sends (events (dev w')) = sends (events (dev w)) ++ new /\
    two_step_replies (map sender (inbox (dev w))) new.
Proof.
  destruct (@while_True_serves _ w k eq_refl)
    as (w' & new & Hrun & Hend & Hev & Hserved).
  exists w', (sends new). repeat split; try assumption.
  - rewrite Hev. apply sends_app.
  - eapply served_sends; eassumption.
Qed.

(** C4. Two datagrams in the queue, the second arriving at any time (in
    particular while the first is being answered): the first is read,
    answered 0x01 and, 500 ms or more later, 0x00; only then is the second
    read off the socket and answered in the same way. *)
Theorem udp_replies_serialized
    (w : World Socket) (d1 d2 : datagram) (k : nat) :
  inbox (dev w) = [d1; d2] ->
  exists (w' : World Socket) (r1 s1 s2 r2 s3 s4 : N),
    while_True (2 + S k) loop_body w = Block w' /\
    events (dev w') =
      events (dev w) ++
        [Recvd r1 (firstn 1024 (payload d1)) (sender d1);
         Sent s1 [x01] (sender d1);
         Sent s2 [x00] (sender d1);
         Recvd r2 (firstn 1024 (payload d2)) (sender d2);
         Sent s3 [x01] (sender d2);
         Sent s4 [x00] (sender d2)] /\
    r1 <= s1 /\ s1 + 500 <= s2 /\ s2 <= r2 /\ r2 <= s3 /\ s3 + 500 <= s4.
Proof.
  intros Hin.
  destruct (@while_True_serves _ w k Hin)
    as (w' & new & Hrun & _ & Hev & Hserved).
  inversion Hserved as [|? ? ? r1 s1 s2 es1 Hr1 Hs1 Hs2 Hrest]; subst.
  inversion Hrest as [|? ? ? r2 s3 s4 es2 Hr2 Hs3 Hs4 Hrest']; subst.
  inversion Hrest'; subst.
  exists w', r1, s1, s2, r2, s3, s4.
  split; [exact Hrun|]. split; [exact Hev|]. lia.
Qed.

(** C5. The delay between the two replies is the 500 ms the loop sleeps,
    not one second: when the operating system adds no latency, the 0x00
    reply is sent exactly 500 ms after the 0x01 reply. *)
Theorem udp_release_delay_is_half_a_second
    (w : World Socket) (d : datagram) (rest : list datagram) :
  inbox (dev w) = d :: rest ->
  lag w = [] ->
  exists (w' : World Socket) (t1 t2 : N),
    loop_body w = Ret tt w' /\
    sends (events (dev w')) =
      sends (events (dev w)) ++ [(t1, [x01], sender d); (t2, [x00], sender d)] /\
    t2 = t1 + 500 /\ t2 <> t1 + 1000.
Proof.
  destruct w as [t l out [b inb evs]]; cbn; intros -> ->.
  run_py. cbn [hd tl].
  do 3 eexists. split; [reflexivity|].
  cbn [dev events]. rewrite !sends_app. cbn [sends app].
  rewrite <- !app_assoc. cbn [app].
  split; [reflexivity|]. lia.
Qed.

(** C8. The payload of a datagram changes nothing but the hexadecimal
    text in the line logged on receipt (and the record of the receive
    itself): two datagrams from the same sender that differ only in their
    payload leave the same clock, the same queue and the same replies
    (number, bytes, destination, order and time of sending), and the same
    log lines but for that text. *)
Theorem udp_payload_only_logged
    (t0 : N) (l : list N) (out : list string) (b : option address)
    (evs : list event) (t : N) (a : address) (p1 p2 : list byte)
    (rest : list datagram) :
  let world p := mkWorld t0 l out (mkSocket b (mkDatagram t p a :: rest) evs) in
  exists (w1 w2 : World Socket) (head : string) (tail : list string),
    loop_body (world p1) = Ret tt w1 /\
    loop_body (world p2) = Ret tt w2 /\
    now w1 = now w2 /\ lag w1 = lag w2 /\
    bound (dev w1) = bound (dev w2) /\ inbox (dev w1) = inbox (dev w2) /\
    sends (events (dev w1)) = sends (events (dev w2)) /\
    stdout w1 = out ++ (head ++ PyBytes.hex (firstn 1024 p1))%string :: tail /\
    stdout w2 = out ++ (head ++ PyBytes.hex (firstn 1024 p2))%string :: tail.
Proof.
  intros world. subst world. run_py.
  do 2 eexists.
  exists ("[" ++ strftime_HMS (N.max t0 t + hd 0 l) ++ "] 📥 Trigger from "
              ++ str_address a ++ ": ")%string.
  eexists.
  split; [reflexivity|]. split; [reflexivity|].
  cbn [now lag dev bound inbox events stdout payload sender arrival].
  repeat (split; [reflexivity|]).
  rewrite !sends_app. split; [reflexivity|].
  rewrite <- !app_assoc. cbn [app].
  rewrite !string_app_assoc.
  split; reflexivity.
Qed.

End UdpResponder.

(** The two triggers 10 ms apart are answered one after the other. *)
Lemma udp_replies_serialized_witness :
  exists (w' : World Socket) (r1 s1 s2 r2 s3 s4 : N),
    while_True 3 (loop_body (rt := sample_runtime)) sample_socket = Block w' /\
    events (dev w') =
      [Recvd r1 [xde; xad] alice; Sent s1 [x01] alice; Sent s2 [x00] alice;
       Recvd r2 [] bob; Sent s3 [x01] bob; Sent s4 [x00] bob] /\
    r1 <= s1 /\ s1 + 500 <= s2 /\ s2 <= r2 /\ r2 <= s3 /\ s3 + 500 <= s4.
Proof.
  exact (@udp_replies_serialized sample_runtime sample_socket
           (mkDatagram 10 [xde; xad] alice) (mkDatagram 20 [] bob) 0 eq_refl).
Defined.

Lemma udp_release_delay_is_half_a_second_witness :
  exists (w' : World Socket) (t1 t2 : N),
    loop_body (rt := sample_runtime)
      (mkWorld 7 [] [] (mkSocket None [mkDatagram 10 [xde; xad] alice] [])) = Ret tt w' /\
    sends (events (dev w')) = [(t1, [x01], alice); (t2, [x00], alice)] /\
    t2 = t1 + 500 /\ t2 <> t1 + 1000.
Proof.
  exact (@udp_release_delay_is_half_a_second sample_runtime
           (mkWorld 7 [] [] (mkSocket None [mkDatagram 10 [xde; xad] alice] []))
           (mkDatagram 10 [xde; xad] alice) [] eq_refl eq_refl).
Defined.

(* ===================================================================== *)
(** ** The HTTP trigger responder                                        *)
(* ===================================================================== *)

Section HttpResponder.
Context {rt : Runtime}.

Lemma getattr_other (c : string) :
  c <> "POST"%string -> c <> "OPTIONS"%string -> getattr ("do_" ++ c) = None.
Proof.
  intros HP HO. unfold getattr. cbn.
  destruct (String.eqb_spec c "POST"); [contradiction|].
  destruct (String.eqb_spec c "OPTIONS"); [contradiction|]. reflexivity.
Qed.

(** [handle_trigger] on a handler that has written nothing yet. *)
Lemma handle_trigger_run t l out req :
  exists w' : World Handler,
    handle_trigger (mkWorld t l out (mkHandler req [] [] true)) = Ret tt w' /\
    wfile (dev w') =
      trigger_response (date_time_string (t + hd 0 l + 100 + hd 0 (tl l))).
Proof.
  run_py. cbn. eexists. split; reflexivity.
Qed.

Lemma do_OPTIONS_run t l out req :
  exists w' : World Handler,
    do_OPTIONS (mkWorld t l out (mkHandler req [] [] true)) = Ret tt w' /\
    wfile (dev w') = preflight_response (date_time_string t).
Proof.
  run_py. cbn. eexists. split; reflexivity.
Qed.

(** The error page is never empty. *)
Lemma error_page_nonempty code message explain :
  PyBytes.encode_utf8 (error_message_format code message explain) <> [].
Proof.
  unfold error_message_format. cbn. discriminate.
Qed.

Lemma send_error_run t l out req code message :
  ((200 <=? code) && negb (existsb (N.eqb code) [204; 205; 304]))%bool = true ->
  exists w' : World Handler,
    send_error log_message code (Some message) None
               (mkWorld t l out (mkHandler req [] [] true)) = Ret tt w' /\
    wfile (dev w') =
      error_response (date_time_string t) code message
        (match responses code with Some (_, long) => long | None => "???"%string end)
        (String.eqb (command req) "HEAD").
Proof.
  intros Hcode. unfold send_error. rewrite Hcode.
  destruct (responses code) as [[short long]|]; run_py;
    cbn -[PyBytes.encode_utf8 error_message_format];
    unfold error_response;
    match goal with
    | |- context [match PyBytes.encode_utf8 ?page with _ => _ end] =>
        assert (Hne : PyBytes.encode_utf8 page <> []) by apply error_page_nonempty;
        destruct (PyBytes.encode_utf8 page) as [|b body]; [congruence|]
    end;
    destruct (String.eqb (command req) "HEAD"); cbn;
    eexists; split; reflexivity.
Qed.

(** *** Dispatch on the method *)

Lemma handler_POST (w : World Handler) :
  command (request (dev w)) = "POST"%string ->
  GatekeeperAPIHandler w = do_POST w.
Proof.
  intros Hc. unfold GatekeeperAPIHandler, handle_one_request, self.
  unfold bind at 1. unfold get_dev. cbv beta iota. rewrite Hc. reflexivity.
Qed.

Lemma handler_OPTIONS (w : World Handler) :
  command (request (dev w)) = "OPTIONS"%string ->
  GatekeeperAPIHandler w = do_OPTIONS w.
Proof.
  intros Hc. unfold GatekeeperAPIHandler, handle_one_request, self.
  unfold bind at 1. unfold get_dev. cbv beta iota. rewrite Hc. reflexivity.
Qed.

Lemma handler_other (w : World Handler) :
  command (request (dev w)) <> "POST"%string ->
  command (request (dev w)) <> "OPTIONS"%string ->
  GatekeeperAPIHandler w =
    send_error log_message 501
      (Some ("Unsupported method (" ++ repr (command (request (dev w))) ++ ")")%string)
      None w.
Proof.
  intros HP HO. unfold GatekeeperAPIHandler, handle_one_request, self.
  unfold bind at 1. unfold get_dev. cbv beta iota.
  rewrite (getattr_other HP HO). reflexivity.
Qed.

(** *** [do_POST] *)

Lemma do_POST_trigger (w : World Handler) (r : urllib_parse.ParseResult) :
  urllib_parse.urlparse (path (request (dev w))) = Value r ->
  urllib_parse.path r = "/trigger"%string ->
  do_POST w = handle_trigger w.
Proof.
  intros Hp Hr. unfold do_POST, self.
  unfold bind at 1. unfold get_dev. cbv beta iota. unfold bind at 1.
  rewrite Hp. cbn [lift_result ret]. rewrite Hr. reflexivity.
Qed.

Lemma do_POST_elsewhere (w : World Handler) (r : urllib_parse.ParseResult) :
  urllib_parse.urlparse (path (request (dev w))) = Value r ->
  urllib_parse.path r <> "/trigger"%string ->
  do_POST w = send_error log_message 404 (Some "Endpoint not found"%string) None w.
Proof.
  intros Hp Hr. unfold do_POST, self.
  unfold bind at 1. unfold get_dev. cbv beta iota. unfold bind at 1.
  rewrite Hp. cbn [lift_result ret].
  destruct (String.eqb_spec (urllib_parse.path r) "/trigger"); [contradiction|].
  reflexivity.
Qed.

End HttpResponder.

Section UrlParse.
Context {rt : Runtime}.
Import PyStr urllib_parse.

(** A target that starts with [/trigger] keeps that start through the
    clean-up. *)
Lemma strip_unsafe_trigger (tail : string) :
  strip_unsafe ("/trigger" ++ tail) =
    ("/trigger" ++ fold_left (fun u b => remove b u) _UNSAFE_URL_BYTES_TO_REMOVE tail)%string.
Proof. reflexivity. Qed.

Lemma split_scheme_slash (s : string) :
  split_scheme (String "/" s) = (EmptyString, String "/" s).
Proof.
  unfold split_scheme. cbn [find]. 
  replace (Ascii.eqb "/" ":") with false by reflexivity.
  destruct (find ":" s); reflexivity.
Qed.

Lemma split_netloc_trigger (s : string) :
  split_netloc ("/t" ++ s) = Value (EmptyString, ("/t" ++ s)%string).
Proof. reflexivity. Qed.

(** The clean-up keeps a leading ['?'] or ['#']. *)
Lemma strip_unsafe_mark (c : ascii) (s : string) :
  c = "?"%char \/ c = "#"%char ->
  fold_left (fun u b => remove b u) _UNSAFE_URL_BYTES_TO_REMOVE (String c s) =
    String c (fold_left (fun u b => remove b u) _UNSAFE_URL_BYTES_TO_REMOVE s).
Proof. intros [-> | ->]; reflexivity. Qed.

Lemma split_fragment_query_of_query (q : string) :
  fst (fst (split_fragment_query ("/trigger?" ++ q))) = "/trigger"%string.
Proof.
  unfold split_fragment_query. cbn.
  destruct (contains "#" q).
  - destruct (split1 "#" q) as [h t]. reflexivity.
  - reflexivity.
Qed.

Lemma split_fragment_query_of_fragment (f : string) :
  fst (fst (split_fragment_query ("/trigger#" ++ f))) = "/trigger"%string.
Proof. reflexivity. Qed.

(** The shapes of a target whose path is [/trigger]. *)
Lemma target_path_trigger (p : string) :
  target_path p = "/trigger"%string ->
  exists tail : string,
    p = ("/trigger" ++ tail)%string /\
    (tail = EmptyString \/
     exists (c : ascii) (s : string),
       tail = String c s /\ (c = "?"%char \/ c = "#"%char)).
Proof.
  intros H.
  do 8 (destruct p as [|? p]; [discriminate|];
        cbn [target_path] in H;
        match type of H with
        | (if ?b then _ else _) = _ => destruct b; [discriminate|]
        end;
        injection H as -> H).
  exists p. split; [reflexivity|].
  destruct p as [|c s]; [left; reflexivity|right].
  exists c, s. split; [reflexivity|].
  cbn [target_path] in H.
  destruct (Ascii.eqb_spec c "?"); [left; assumption|].
  destruct (Ascii.eqb_spec c "#"); [right; assumption|].
  discriminate.
Qed.

(** [urlparse] finds the path [/trigger] in every such target. *)
Lemma urlparse_target_path (p : string) :
  target_path p = "/trigger"%string ->
  exists r : ParseResult,
    urlparse p = Value r /\ urllib_parse.path r = "/trigger"%string.
Proof.
  intros H. destruct (target_path_trigger p H) as (tail & -> & Htail).
  unfold urlparse, urlsplit.
  rewrite strip_unsafe_trigger.
  set (tail' := fold_left _ _ tail).
  assert (Hpath : fst (fst (split_fragment_query ("/trigger" ++ tail'))) = "/trigger"%string).
  { subst tail'. destruct Htail as [-> | (c & s & -> & Hc)].
    - reflexivity.
    - rewrite (strip_unsafe_mark s Hc).
      destruct Hc as [-> | ->].
      + apply split_fragment_query_of_query.
      + apply split_fragment_query_of_fragment. }
  change ("/trigger" ++ tail')%string with (String "/" ("trigger" ++ tail')) at 1.
  rewrite split_scheme_slash.
  change (String "/" ("trigger" ++ tail')) with ("/t" ++ ("rigger" ++ tail'))%string.
  rewrite split_netloc_trigger.
  change ("/t" ++ ("rigger" ++ tail'))%string with ("/trigger" ++ tail')%string.
  destruct (split_fragment_query ("/trigger" ++ tail')) as [[url query] fragment].
  cbn [fst] in Hpath. subst url.
  cbn. eexists. split; reflexivity.
Qed.

End UrlParse.

Section HttpClaims.
Context {rt : Runtime}.

(** What the client of a trigger reads. *)
Lemma respond_trigger (req : Request) (w : World unit) :
  is_trigger req ->
  respond req w =
    trigger_response
      (date_time_string (now w + hd 0 (lag w) + 100 + hd 0 (tl (lag w)))).
Proof.
  intros [Hc (r & Hp & Hr)]. unfold respond.
  rewrite handler_POST by exact Hc.
  rewrite (@do_POST_trigger _ _ r) by assumption.
  destruct (handle_trigger_run (now w) (lag w) (stdout w) req) as (w' & -> & Hw).
  exact Hw.
Qed.

Lemma respond_preflight (req : Request) (w : World unit) :
  command req = "OPTIONS"%string ->
  respond req w = preflight_response (date_time_string (now w)).
Proof.
  intros Hc. unfold respond.
  rewrite handler_OPTIONS by exact Hc.
  destruct (do_OPTIONS_run (now w) (lag w) (stdout w) req) as (w' & -> & Hw).
  exact Hw.
Qed.

Lemma respond_post_elsewhere (req : Request) (w : World unit)
      (r : urllib_parse.ParseResult) :
  command req = "POST"%string ->
  urllib_parse.urlparse (path req) = Value r ->
  urllib_parse.path r <> "/trigger"%string ->
  respond req w =
    error_response (date_time_string (now w)) 404 "Endpoint not found"
                   "Nothing matches the given URI" false.
Proof.
  intros Hc Hp Hr. unfold respond.
  rewrite handler_POST by exact Hc.
  rewrite (@do_POST_elsewhere _ _ r) by assumption.
  destruct (@send_error_run _ (now w) (lag w) (stdout w) req 404 "Endpoint not found" eq_refl)
    as (w' & -> & Hw).
  cbn [final]. rewrite Hw, Hc. reflexivity.
Qed.

Lemma respond_other_method (req : Request) (w : World unit) :
  command req <> "POST"%string ->
  command req <> "OPTIONS"%string ->
  respond req w =
    error_response (date_time_string (now w)) 501
                   ("Unsupported method (" ++ repr (command req) ++ ")")
                   "Server does not support this operation"
                   (String.eqb (command req) "HEAD").
Proof.
  intros HP HO. unfold respond.
  rewrite handler_other by assumption.
  cbn [dev request].
  destruct (@send_error_run _ (now w) (lag w) (stdout w) req 501
              ("Unsupported method (" ++ repr (command req) ++ ")") eq_refl)
    as (w' & -> & Hw).
  exact Hw.
Qed.

Lemma error_response_status date code message explain head_request :
  status_of (error_response date code message explain head_request) = Some code.
Proof. reflexivity. Qed.

Lemma error_response_body date code message explain :
  body_of (error_response date code message explain false) <> [].
Proof.
  unfold error_response. cbn [app body_of data_of].
  rewrite app_nil_r. apply error_page_nonempty.
Qed.

Lemma error_response_header_names date code message explain head_request :
  map fst (header_fields (error_response date code message explain head_request)) =
    ["Server"; "Date"; "Connection"; "Content-Type"; "Content-Length"]%string.
Proof. destruct head_request; reflexivity. Qed.

Lemma error_response_no_cors date code message explain head_request :
  no_cors_header (error_response date code message explain head_request).
Proof.
  intros k v H. unfold has_header in H.
  apply (in_map fst) in H. rewrite error_response_header_names in H.
  cbn [fst In] in H.
  repeat (destruct H as [<- | H]; [reflexivity|]).
  destruct H.
Qed.

(** C2. Every POST whose path is [/trigger] is answered with status 200,
    the body [OK] and the three CORS header fields, whatever the request
    carries as headers and body. *)
Theorem post_trigger_replies_ok (req : Request) (w : World unit) :
  command req = "POST"%string ->
  path req = "/trigger"%string ->
  status_of (respond req w) = Some 200 /\
  body_of (respond req w) = [x4f; x4b] /\
  cors_headers (respond req w).
Proof.
  intros Hc Hp.
  rewrite respond_trigger.
  - unfold cors_headers, has_header. cbn. intuition.
  - split; [exact Hc|]. rewrite Hp. eexists. split; reflexivity.
Qed.

(** C6. Every OPTIONS request, on any path, is answered with status 200,
    the three CORS header fields and no body. *)
Theorem options_preflight_reply (req : Request) (w : World unit) :
  command req = "OPTIONS"%string ->
  status_of (respond req w) = Some 200 /\
  cors_headers (respond req w) /\
  body_of (respond req w) = [].
Proof.
  intros Hc. rewrite respond_preflight by exact Hc.
  unfold cors_headers, has_header. cbn. intuition.
Qed.

(** C3, as amended. A request that is neither an OPTIONS request nor a
    POST whose parsed path is [/trigger] gets an error status: 404 when it
    is a POST (to a target that parses), 501 when it has another method,
    for which the class defines no handler; the reply carries the error
    page as its body unless the method is HEAD. *)
Theorem unserved_request_error (req : Request) (w : World unit) :
  unserved req ->
  status_of (respond req w) =
    Some (if String.eqb (command req) "POST" then 404 else 501) /\
  (command req <> "HEAD"%string -> body_of (respond req w) <> []).
Proof.
  intros [[Hc (r & Hp & Hr)] | [HP HO]].
  - rewrite respond_post_elsewhere with (r := r) by assumption. rewrite Hc.
    split; [reflexivity|]. intros _. apply error_response_body.
  - rewrite respond_other_method by assumption.
    destruct (String.eqb_spec (command req) "POST"); [contradiction|].
    split; [reflexivity|]. intros HH.
    destruct (String.eqb_spec (command req) "HEAD"); [contradiction|].
    apply error_response_body.
Qed.

(** C9. The 404 reply to a POST on another path than [/trigger] carries
    no CORS header field. *)
Theorem post_elsewhere_no_cors
    (req : Request) (w : World unit) (r : urllib_parse.ParseResult) :
  command req = "POST"%string ->
  urllib_parse.urlparse (path req) = Value r ->
  urllib_parse.path r <> "/trigger"%string ->
  status_of (respond req w) = Some 404 /\
  no_cors_header (respond req w).
Proof.
  intros Hc Hp Hr. rewrite respond_post_elsewhere with (r := r) by assumption.
  split; [reflexivity|]. apply error_response_no_cors.
Qed.

(** C10. The query string and the fragment of the target do not count: a
    POST whose target has the path [/trigger], whatever follows the first
    ['?'] or ['#'], is a trigger and is answered 200 with the body [OK]. *)
Theorem post_trigger_ignores_query_and_fragment (req : Request) (w : World unit) :
  command req = "POST"%string ->
  target_path (path req) = "/trigger"%string ->
  is_trigger req /\
  status_of (respond req w) = Some 200 /\
  body_of (respond req w) = [x4f; x4b].
Proof.
  intros Hc Hp.
  assert (Ht : is_trigger req).
  { split; [exact Hc|]. apply urlparse_target_path, Hp. }
  split; [exact Ht|]. rewrite respond_trigger by exact Ht. split; reflexivity.
Qed.

End HttpClaims.

Lemma post_trigger_replies_ok_witness :
  status_of (respond (rt := sample_runtime) post_trigger sample_world) = Some 200 /\
  body_of (respond (rt := sample_runtime) post_trigger sample_world) = [x4f; x4b] /\
  cors_headers (respond (rt := sample_runtime) post_trigger sample_world).
Proof.
  exact (@post_trigger_replies_ok sample_runtime post_trigger sample_world
           eq_refl eq_refl).
Defined.

Lemma options_preflight_reply_witness :
  status_of (respond (rt := sample_runtime) options_any sample_world) = Some 200 /\
  cors_headers (respond (rt := sample_runtime) options_any sample_world) /\
  body_of (respond (rt := sample_runtime) options_any sample_world) = [].
Proof.
  exact (@options_preflight_reply sample_runtime options_any sample_world eq_refl).
Defined.

(** C3 as stated fails: a GET to [/trigger] is neither a POST to [/trigger]
    nor an OPTIONS request, and it is answered 501, not 404. *)
Lemma get_trigger_answered_501 :
  command get_trigger <> "OPTIONS"%string /\
  command get_trigger <> "POST"%string /\
  path get_trigger = "/trigger"%string /\
  status_of (respond (rt := sample_runtime) get_trigger sample_world) = Some 501 /\
  status_of (respond (rt := sample_runtime) get_trigger sample_world) <> Some 404.
Proof.
  repeat split; try discriminate; reflexivity.
Qed.

Lemma unserved_request_error_witness :
  unserved (rt := sample_runtime) get_trigger /\
  status_of (respond (rt := sample_runtime) get_trigger sample_world) = Some 501 /\
  (command get_trigger <> "HEAD"%string ->
   body_of (respond (rt := sample_runtime) get_trigger sample_world) <> []).
Proof.
  assert (H : unserved (rt := sample_runtime) get_trigger).
  { right. split; discriminate. }
  split; [exact H|].
  exact (@unserved_request_error sample_runtime get_trigger sample_world H).
Defined.

Lemma post_elsewhere_no_cors_witness :
  status_of (respond (rt := sample_runtime) post_elsewhere sample_world) = Some 404 /\
  no_cors_header (respond (rt := sample_runtime) post_elsewhere sample_world).
Proof.
  apply (@post_elsewhere_no_cors sample_runtime post_elsewhere sample_world
           (urllib_parse.mkParseResult "" "" "/status" "" "" "")).
  - reflexivity.
  - reflexivity.
  - discriminate.
Defined.

Lemma post_trigger_ignores_query_and_fragment_witness :
  is_trigger (rt := sample_runtime) post_trigger_query /\
  status_of (respond (rt := sample_runtime) post_trigger_query sample_world) = Some 200 /\
  body_of (respond (rt := sample_runtime) post_trigger_query sample_world) = [x4f; x4b].
Proof.
  exact (@post_trigger_ignores_query_and_fragment sample_runtime
           post_trigger_query sample_world eq_refl eq_refl).
Defined.

(* ===================================================================== *)
(** ** No state between trigger cycles                                   *)
(* ===================================================================== *)

Lemma Forall2_nth_error_l {A B : Type} (R : A -> B -> Prop)
      (l : list A) (l' : list B) (n : nat) (a : A) :
  Forall2 R l l' -> nth_error l n = Some a ->
  exists b : B, nth_error l' n = Some b /\ R a b.
Proof.
  intros HF. revert n. induction HF as [|x y l l' HR HF IH]; intros n Hn.
  - destruct n; discriminate.
  - destruct n as [|n]; cbn in *.
    + injection Hn as ->. exists y. split; [reflexivity | exact HR].
    + apply IH, Hn.
Qed.

Section Stateless.
Context {rt : Runtime}.

(** What the server has sent after a run: what it had sent before, then
    one response per request, each the work of a fresh handler. *)
Lemma serve_forever_transcript (incoming : list Request) :
  forall w : Server,
  exists outs : list (list wire),
    dev (serve_forever GatekeeperAPIHandler incoming w) = dev w ++ outs /\
    Forall2 (fun req out => exists w' : World unit, out = respond req w')
            incoming outs.
Proof.
  unfold serve_forever.
  induction incoming as [|req incoming IH]; intros w; cbn [fold_left].
  - exists []. rewrite app_nil_r. split; [reflexivity | constructor].
  - destruct (IH (process_request GatekeeperAPIHandler w req)) as (outs & Hd & HF).
    exists (respond req (mkWorld (now w) (lag w) (stdout w) tt) :: outs).
    split.
    + rewrite Hd. unfold process_request, respond. cbn [dev now lag stdout].
      rewrite <- app_assoc. reflexivity.
    + constructor; [eexists; reflexivity | exact HF].
Qed.

Lemma undated_trigger_response (date date' : string) :
  undated (trigger_response date) = undated (trigger_response date').
Proof. reflexivity. Qed.

(** C7. No state persists between trigger cycles. In a run of the HTTP
    server the response to the Nth request, when it is a trigger, is the
    response to a first trigger: the same status line, header fields and
    body, the [Date] field holding the clock reading of its own moment and
    nothing of the requests served before. In a run of the UDP loop the
    Nth datagram gets the reply sequence the first one got when it comes
    from the same sender. *)
Theorem no_state_between_triggers :
  (forall (incoming : list Request) (w : Server) (n : nat) (r1 rN : Request),
      dev w = [] ->
      nth_error incoming 0 = Some r1 ->
      nth_error incoming n = Some rN ->
      is_trigger r1 -> is_trigger rN ->
      exists (t1 tN : N),
        nth_error (dev (serve_forever GatekeeperAPIHandler incoming w)) 0 =
          Some (trigger_response (date_time_string t1)) /\
        nth_error (dev (serve_forever GatekeeperAPIHandler incoming w)) n =
          Some (trigger_response (date_time_string tN)) /\
        undated (trigger_response (date_time_string tN)) =
          undated (trigger_response (date_time_string t1)))
  /\
  (forall (w : World Socket) (n k : nat) (d1 dN : datagram),
      events (dev w) = [] ->
      nth_error (inbox (dev w)) 0 = Some d1 ->
      nth_error (inbox (dev w)) n = Some dN ->
      sender dN = sender d1 ->
      exists (w' : World Socket) (c : list (list byte * address)),
        while_True (List.length (inbox (dev w)) + S k) loop_body w = Block w' /\
        c = [([x01], sender d1); ([x00], sender d1)] /\
        nth_error (cycles (events (dev w'))) 0 = Some c /\
        nth_error (cycles (events (dev w'))) n = Some c).
Proof.
  split.
  - intros incoming w n r1 rN Hw H1 HN Ht1 HtN.
    destruct (serve_forever_transcript incoming w) as (outs & Hd & HF).
    rewrite Hw in Hd. cbn [app] in Hd. rewrite Hd.
    destruct (Forall2_nth_error_l 0 HF H1) as (o1 & Ho1 & w1 & ->).
    destruct (Forall2_nth_error_l n HF HN) as (oN & HoN & wN & ->).
    rewrite respond_trigger in Ho1 by exact Ht1.
    rewrite respond_trigger in HoN by exact HtN.
    do 2 eexists. split; [exact Ho1|]. split; [exact HoN|].
    apply undated_trigger_response.
  - intros w n k d1 dN Hev H1 HN Hs.
    destruct (@while_True_serves _ _ w k eq_refl)
      as (w' & new & Hrun & _ & Hev' & Hserved).
    rewrite Hev in Hev'. cbn [app] in Hev'.
    exists w'. eexists. split; [exact Hrun|]. split; [reflexivity|].
    rewrite Hev', (served_cycles Hserved).
    rewrite !nth_error_map, H1, HN. cbn [option_map]. rewrite Hs.
    split; reflexivity.
Qed.

End Stateless.

Lemma no_state_between_triggers_witness :
  (exists (t1 tN : N),
      nth_error (dev (serve_forever (GatekeeperAPIHandler (rt := sample_runtime))
                                    sample_incoming sample_server)) 0%nat =
        Some (trigger_response (rt := sample_runtime) (PyStr.of_N (t1 / 1000))) /\
      nth_error (dev (serve_forever (GatekeeperAPIHandler (rt := sample_runtime))
                                    sample_incoming sample_server)) 3%nat =
        Some (trigger_response (rt := sample_runtime) (PyStr.of_N (tN / 1000))) /\
      undated (trigger_response (rt := sample_runtime) (PyStr.of_N (tN / 1000))) =
        undated (trigger_response (rt := sample_runtime) (PyStr.of_N (t1 / 1000))))
  /\
  (exists (w' : World Socket) (c : list (list byte * address)),
      while_True 4%nat (loop_body (rt := sample_runtime)) sample_socket3 = Block w' /\
      c = [([x01], alice); ([x00], alice)] /\
      nth_error (cycles (events (dev w'))) 0%nat = Some c /\
      nth_error (cycles (events (dev w'))) 2%nat = Some c).
Proof.
  split.
  - apply (proj1 (@no_state_between_triggers sample_runtime)
             sample_incoming sample_server 3%nat post_trigger post_trigger_query);
      try reflexivity;
      (split; [reflexivity | eexists; split; reflexivity]).
  - apply (proj2 (@no_state_between_triggers sample_runtime)
             sample_socket3 2%nat 0%nat
             (mkDatagram 10 [xde; xad] alice)
             (mkDatagram 5000 [x01; x02; x03] alice));
      reflexivity.
Defined.

(* ===================================================================== *)
(** ** Further properties of the HTTP simulator                          *)
(* ===================================================================== *)

Section HttpEffects.
Context {rt : Runtime}.

(** All that [handle_trigger] does to a fresh handler: the response, the
    two printed lines, and the time it takes. *)
Lemma handle_trigger_effects t l out req :
  exists (w' : World Handler) (td t2 : N),
    handle_trigger (mkWorld t l out (mkHandler req [] [] true)) = Ret tt w' /\
    wfile (dev w') = trigger_response (date_time_string td) /\
    stdout w' =
      out ++ trigger_log (strftime_HMS t) (strftime_HMS t2) (fst (client_address req)) /\
    t + 100 <= td /\ td <= t2 /\ t2 <= now w'.
Proof.
  run_py. cbn.
  do 3 eexists. split; [reflexivity|].
  cbn [dev wfile stdout now]. split; [reflexivity|].
  rewrite <- app_assoc. split; [reflexivity|]. lia.
Qed.

Lemma do_OPTIONS_effects t l out req :
  exists w' : World Handler,
    do_OPTIONS (mkWorld t l out (mkHandler req [] [] true)) = Ret tt w' /\
    wfile (dev w') = preflight_response (date_time_string t) /\
    stdout w' = out /\ t <= now w'.
Proof.
  run_py. cbn. eexists. split; [reflexivity|].
  cbn [dev wfile stdout now]. repeat split. lia.
Qed.

Lemma send_error_effects t l out req code message :
  ((200 <=? code) && negb (existsb (N.eqb code) [204; 205; 304]))%bool = true ->
  exists w' : World Handler,
    send_error log_message code (Some message) None
               (mkWorld t l out (mkHandler req [] [] true)) = Ret tt w' /\
    wfile (dev w') =
      error_response (date_time_string t) code message
        (match responses code with Some (_, long) => long | None => "???"%string end)
        (String.eqb (command req) "HEAD") /\
    stdout w' = out /\ t <= now w'.
Proof.
  intros Hcode. unfold send_error. rewrite Hcode.
  destruct (responses code) as [[short long]|]; run_py;
    cbn -[PyBytes.encode_utf8 error_message_format];
    unfold error_response;
    match goal with
    | |- context [match PyBytes.encode_utf8 ?page with _ => _ end] =>
        assert (Hne : PyBytes.encode_utf8 page <> []) by apply error_page_nonempty;
        destruct (PyBytes.encode_utf8 page) as [|b body]; [congruence|]
    end;
    destruct (String.eqb (command req) "HEAD"); cbn;
    eexists; (split; [reflexivity|]); cbn [dev wfile stdout now];
    repeat split; lia.
Qed.

(** *** The five ways a request can end *)

Lemma handled_trigger (req : Request) (w : World unit) :
  is_trigger req ->
  exists (w' : World Handler) (td t2 : N),
    handled req w = Ret tt w' /\
    wfile (dev w') = trigger_response (date_time_string td) /\
    stdout w' =
      stdout w ++ trigger_log (strftime_HMS (now w)) (strftime_HMS t2)
                              (fst (client_address req)) /\
    now w + 100 <= td /\ td <= t2 /\ t2 <= now w'.
Proof.
  intros [Hc (r & Hp & Hr)]. unfold handled.
  rewrite handler_POST by exact Hc.
  rewrite (@do_POST_trigger _ _ r) by assumption.
  apply handle_trigger_effects.
Qed.

Lemma handled_preflight (req : Request) (w : World unit) :
  command req = "OPTIONS"%string ->
  exists w' : World Handler,
    handled req w = Ret tt w' /\
    wfile (dev w') = preflight_response (date_time_string (now w)) /\
    stdout w' = stdout w /\ now w <= now w'.
Proof.
  intros Hc. unfold handled. rewrite handler_OPTIONS by exact Hc.
  apply do_OPTIONS_effects.
Qed.

Lemma handled_elsewhere (req : Request) (w : World unit)
      (r : urllib_parse.ParseResult) :
  command req = "POST"%string ->
  urllib_parse.urlparse (path req) = Value r ->
  urllib_parse.path r <> "/trigger"%string ->
  exists w' : World Handler,
    handled req w = Ret tt w' /\
    wfile (dev w') =
      error_response (date_time_string (now w)) 404 "Endpoint not found"
                     "Nothing matches the given URI" false /\
    stdout w' = stdout w /\ now w <= now w'.
Proof.
  intros Hc Hp Hr. unfold handled.
  rewrite handler_POST by exact Hc.
  rewrite (@do_POST_elsewhere _ _ r) by assumption.
  destruct (@send_error_effects (now w) (lag w) (stdout w) req 404
              "Endpoint not found" eq_refl) as (w' & Hrun & Hw & Hout & Hnow).
  exists w'. rewrite Hw, Hc. repeat split; assumption.
Qed.

Lemma handled_other_method (req : Request) (w : World unit) :
  command req <> "POST"%string ->
  command req <> "OPTIONS"%string ->
  exists w' : World Handler,
    handled req w = Ret tt w' /\
    wfile (dev w') =
      error_response (date_time_string (now w)) 501
                     ("Unsupported method (" ++ repr (command req) ++ ")")
                     "Server does not support this operation"
                     (String.eqb (command req) "HEAD") /\
    stdout w' = stdout w /\ now w <= now w'.
Proof.
  intros HP HO. unfold handled.
  rewrite handler_other by assumption. cbn [dev request].
  apply (@send_error_effects (now w) (lag w) (stdout w) req 501
           ("Unsupported method (" ++ repr (command req) ++ ")") eq_refl).
Qed.

Lemma handled_raises (req : Request) (w : World unit) (e : exn) :
  command req = "POST"%string ->
  urllib_parse.urlparse (path req) = Raises e ->
  handled req w =
    Raise e (mkWorld (now w) (lag w) (stdout w) (mkHandler req [] [] true)).
Proof.
  intros Hc Hp. unfold handled.
  rewrite handler_POST by exact Hc.
  unfold do_POST, self. unfold bind at 1. unfold get_dev. cbv beta iota.
  unfold bind at 1. cbn [dev request]. rewrite Hp. reflexivity.
Qed.

Lemma is_triggerb_spec (req : Request) :
  is_triggerb req = true <-> is_trigger req.
Proof.
  unfold is_triggerb, is_trigger. split.
  - intros H. apply andb_prop in H as [Hc Hp].
    apply String.eqb_eq in Hc. split; [exact Hc|].
    destruct (urllib_parse.urlparse (path req)) as [r|e]; [|discriminate].
    exists r. split; [reflexivity|]. apply String.eqb_eq, Hp.
  - intros [Hc (r & Hp & Hr)]. rewrite Hc, Hp, Hr. reflexivity.
Qed.

Lemma is_triggerb_false (req : Request) :
  is_triggerb req = false -> ~ is_trigger req.
Proof.
  intros Hb Ht. apply is_triggerb_spec in Ht. congruence.
Qed.

(** What a request leaves behind, whatever it is: two printed lines and at
    least 100 ms for a trigger, no line for anything else. *)
Lemma handled_summary (req : Request) (w : World unit) :
  exists t2 : N,
    stdout (final (handled req w)) =
      stdout w ++ (if is_triggerb req
                   then trigger_log (strftime_HMS (now w)) (strftime_HMS t2)
                                    (fst (client_address req))
                   else []) /\
    now w + (if is_triggerb req then 100 else 0) <= now (final (handled req w)).
Proof.
  destruct (is_triggerb req) eqn:Hb.
  - apply is_triggerb_spec in Hb.
    destruct (@handled_trigger req w Hb) as (w' & td & t2 & -> & _ & Hout & H1 & H2 & H3).
    exists t2. cbn [final]. split; [exact Hout | lia].
  - exists 0. rewrite app_nil_r, N.add_0_r.
    pose proof (is_triggerb_false Hb) as Hnt.
    destruct (String.eqb_spec (command req) "POST") as [HP|HP].
    + destruct (urllib_parse.urlparse (path req)) as [r|e] eqn:Hp.
      * destruct (String.eqb_spec (urllib_parse.path r) "/trigger") as [Hr|Hr].
        { exfalso. apply Hnt. split; [exact HP|]. exists r. split; assumption. }
        destruct (@handled_elsewhere req w r HP Hp Hr) as (w' & -> & _ & Hout & Hnow).
        cbn [final]. split; assumption.
      * rewrite (@handled_raises req w e HP Hp). cbn [final stdout now].
        split; [reflexivity | lia].
    + destruct (String.eqb_spec (command req) "OPTIONS") as [HO|HO].
      * destruct (@handled_preflight req w HO) as (w' & -> & _ & Hout & Hnow).
        cbn [final]. split; assumption.
      * destruct (@handled_other_method req w HP HO) as (w' & -> & _ & Hout & Hnow).
        cbn [final]. split; assumption.
Qed.


(** X2. [do_POST] catches nothing: when [urlparse] rejects the target of a
    POST, the exception leaves the handler before a byte is written or a
    line printed; the connection gets nothing, and the server goes on with
    its clock and its log as they were. *)
Theorem rejected_target_gets_no_response
    (req : Request) (w : Server) (e : exn) :
  command req = "POST"%string ->
  urllib_parse.urlparse (path req) = Raises e ->
  handled req (mkWorld (now w) (lag w) (stdout w) tt) =
    Raise e (mkWorld (now w) (lag w) (stdout w) (mkHandler req [] [] true)) /\
  process_request GatekeeperAPIHandler w req =
    mkWorld (now w) (lag w) (stdout w) (dev w ++ [[]]).
Proof.
  intros Hc Hp.
  pose proof (@handled_raises req (mkWorld (now w) (lag w) (stdout w) tt) e Hc Hp) as H.
  split; [exact H|].
  unfold process_request. unfold handled in H. cbn [now lag stdout] in H.
  rewrite H. reflexivity.
Qed.

(** X3. The handler prints for triggers only: the two lines of
    [handle_trigger], the first with the time the request was taken and the
    host of the client, the second stamped at least 100 ms later. An OPTIONS
    request, a POST to another path or to a rejected target, a request with
    another method leave standard output as it was. *)
Theorem handler_prints_for_triggers_only (req : Request) (w : World unit) :
  exists t2 : N,
    now w + 100 <= t2 /\
    stdout (final (handled req w)) =
      stdout w ++ (if is_triggerb req
                   then trigger_log (strftime_HMS (now w)) (strftime_HMS t2)
                                    (fst (client_address req))
                   else []).
Proof.
  destruct (is_triggerb req) eqn:Hb.
  - apply is_triggerb_spec in Hb.
    destruct (@handled_trigger req w Hb) as (w' & td & t2 & -> & _ & Hout & H1 & H2 & H3).
    exists t2. cbn [final]. split; [lia | exact Hout].
  - destruct (handled_summary req w) as (t2 & Hout & _).
    rewrite Hb in Hout. exists (now w + 100). split; [lia | exact Hout].
Qed.

(** X4. The reply to a trigger has these header fields, in this order:
    Server, Date, the three CORS fields, Content-Type: text/plain. The Date
    is read at least 100 ms after the request was taken (the simulated
    processing delay comes first), and there is no Content-Length. *)
Theorem trigger_reply_header_fields (req : Request) (w : World unit) :
  is_trigger req ->
  exists td : N,
    now w + 100 <= td /\
    header_fields (respond req w) =
      [("Server", version_string);
       ("Date", date_time_string td);
       ("Access-Control-Allow-Origin", "*");
       ("Access-Control-Allow-Methods", "POST, OPTIONS");
       ("Access-Control-Allow-Headers", "Content-Type");
       ("Content-Type", "text/plain")]%string /\
    (forall v : string, ~ has_header "Content-Length" v (respond req w)).
Proof.
  intros Ht.
  destruct (@handled_trigger req w Ht) as (w' & td & t2 & Hrun & Hw & _ & H1 & _).
  exists td. split; [exact H1|].
  assert (Hr : respond req w = trigger_response (date_time_string td)).
  { unfold respond. unfold handled in Hrun. rewrite Hrun. exact Hw. }
  rewrite Hr. split; [reflexivity|].
  intros v H. unfold has_header in H. cbn in H.
  repeat (destruct H as [H | H]; [discriminate H|]). exact H.
Qed.

(** *** Path parameters *)

Lemma contains_remove (c b : ascii) (s : string) :
  PyStr.contains c s = false -> PyStr.contains c (PyStr.remove b s) = false.
Proof.
  induction s as [|a s IH]; cbn; [reflexivity|].
  destruct (Ascii.eqb a c) eqn:Hac; [discriminate|]. intros H.
  destruct (Ascii.eqb a b); cbn; rewrite ?Hac; apply IH, H.
Qed.

Lemma contains_strip_unsafe (c : ascii) (s : string) :
  PyStr.contains c s = false ->
  PyStr.contains c
    (fold_left (fun u b => PyStr.remove b u)
               urllib_parse._UNSAFE_URL_BYTES_TO_REMOVE s) = false.
Proof.
  intros H. cbn [fold_left urllib_parse._UNSAFE_URL_BYTES_TO_REMOVE].
  repeat apply contains_remove. exact H.
Qed.

Lemma rfind_absent (c : ascii) (s : string) :
  PyStr.contains c s = false -> PyStr.rfind c s = None.
Proof.
  induction s as [|a s IH]; cbn; [reflexivity|].
  destruct (Ascii.eqb a c); [discriminate|]. intros H. rewrite (IH H). reflexivity.
Qed.

(** [urlparse] splits the parameters off the last segment of the path. *)
Lemma urlparse_trigger_params (params : string) :
  PyStr.contains "/" params = false ->
  PyStr.contains "?" params = false ->
  PyStr.contains "#" params = false ->
  exists r : urllib_parse.ParseResult,
    urllib_parse.urlparse ("/trigger;" ++ params) = Value r /\
    urllib_parse.path r = "/trigger"%string.
Proof.
  intros Hs Hq Hf.
  unfold urllib_parse.urlparse, urllib_parse.urlsplit.
  change ("/trigger;" ++ params)%string with ("/trigger" ++ String ";" params)%string.
  rewrite strip_unsafe_trigger.
  change (fold_left (fun u b => PyStr.remove b u)
                    urllib_parse._UNSAFE_URL_BYTES_TO_REMOVE (String ";" params))
    with (String ";" (fold_left (fun u b => PyStr.remove b u)
                                urllib_parse._UNSAFE_URL_BYTES_TO_REMOVE params)).
  set (p := fold_left _ _ params).
  assert (Hs' : PyStr.contains "/" p = false) by apply contains_strip_unsafe, Hs.
  assert (Hq' : PyStr.contains "?" p = false) by apply contains_strip_unsafe, Hq.
  assert (Hf' : PyStr.contains "#" p = false) by apply contains_strip_unsafe, Hf.
  clearbody p.
  change ("/trigger" ++ String ";" p)%string with (String "/" ("trigger;" ++ p)) at 1.
  rewrite split_scheme_slash.
  change (String "/" ("trigger;" ++ p)) with ("/t" ++ ("rigger;" ++ p))%string.
  rewrite split_netloc_trigger.
  unfold urllib_parse.split_fragment_query. cbn [append PyStr.contains].
  replace (Ascii.eqb "/" "#") with false by reflexivity.
  cbn. rewrite Hf'. cbn. rewrite Hq'. cbn.
  unfold urllib_parse._splitparams. cbn.
  rewrite (rfind_absent _ _ Hs'). cbn.
  eexists. split; reflexivity.
Qed.

(** X5. Path parameters do not count either: a POST to [/trigger;params]
    (parameters free of ['/'], ['?'] and ['#']) is a trigger and is answered
    200 with the body [OK], because the test is made on the path that
    [urlparse] returns. *)
Theorem post_trigger_ignores_params
    (req : Request) (w : World unit) (params : string) :
  command req = "POST"%string ->
  path req = ("/trigger;" ++ params)%string ->
  PyStr.contains "/" params = false ->
  PyStr.contains "?" params = false ->
  PyStr.contains "#" params = false ->
  is_trigger req /\
  status_of (respond req w) = Some 200 /\
  body_of (respond req w) = [x4f; x4b].
Proof.
  intros Hc Hp Hs Hq Hf.
  assert (Ht : is_trigger req).
  { split; [exact Hc|]. rewrite Hp. apply urlparse_trigger_params; assumption. }
  split; [exact Ht|].
  destruct (@handled_trigger req w Ht) as (w' & td & t2 & Hrun & Hw & _).
  assert (Hr : respond req w = trigger_response (date_time_string td)).
  { unfold respond. unfold handled in Hrun. rewrite Hrun. exact Hw. }
  rewrite Hr. split; reflexivity.
Qed.

(** *** The server as a whole *)

Lemma process_request_handled (w : Server) (req : Request) :
  process_request GatekeeperAPIHandler w req =
    let w' := final (handled req (mkWorld (now w) (lag w) (stdout w) tt)) in
    mkWorld (now w') (lag w') (stdout w') (dev w ++ [wfile (dev w')]).
Proof. reflexivity. Qed.

(** X6. The server accounts for every request: after a run there is one
    entry in the transcript per request that came in (an empty one when the
    handler raised), two more lines on standard output per trigger and none
    for the other requests, and at least 100 ms have gone by per trigger. *)
Theorem server_accounts_for_every_request (incoming : list Request) (w : Server) :
  exists logs : list string,
    stdout (serve_forever GatekeeperAPIHandler incoming w) = stdout w ++ logs /\
    List.length logs = (2 * List.length (filter is_triggerb incoming))%nat /\
    List.length (dev (serve_forever GatekeeperAPIHandler incoming w)) =
      (List.length (dev w) + List.length incoming)%nat /\
    now w + 100 * N.of_nat (List.length (filter is_triggerb incoming)) <=
      now (serve_forever GatekeeperAPIHandler incoming w).
Proof.
  unfold serve_forever. revert w.
  induction incoming as [|req incoming IH]; intros w; cbn [fold_left filter].
  - exists []. rewrite app_nil_r. cbn. repeat split; lia.
  - destruct (IH (process_request GatekeeperAPIHandler w req))
      as (logs & Hout & Hlen & Hdev & Hnow).
    destruct (handled_summary req (mkWorld (now w) (lag w) (stdout w) tt))
      as (t2 & Hout1 & Hnow1).
    cbn [stdout now] in Hout1, Hnow1.
    assert (Hs : stdout (process_request GatekeeperAPIHandler w req) =
                 stdout (final (handled req (mkWorld (now w) (lag w) (stdout w) tt))))
      by reflexivity.
    assert (Hn : now (process_request GatekeeperAPIHandler w req) =
                 now (final (handled req (mkWorld (now w) (lag w) (stdout w) tt))))
      by reflexivity.
    assert (Hd : List.length (dev (process_request GatekeeperAPIHandler w req)) =
                 S (List.length (dev w))).
    { rewrite process_request_handled. cbn [dev]. rewrite length_app. cbn. lia. }
    rewrite Hout, Hs, Hout1, Hdev, Hd. rewrite Hn in Hnow.
    destruct (is_triggerb req).
    + eexists. rewrite <- app_assoc. split; [reflexivity|].
      rewrite !length_app. cbn [List.length trigger_log].
      split; [lia|]. split; [lia|]. clear - Hnow Hnow1. lia.
    + exists logs. rewrite app_nil_r. split; [reflexivity|].
      cbn [List.length].
      split; [lia|]. split; [lia|]. clear - Hnow Hnow1. lia.
Qed.


End HttpEffects.

(* ===================================================================== *)
(** ** Further properties of the UDP simulator                           *)
(* ===================================================================== *)

Lemma hex_length (data : list byte) :
  String.length (PyBytes.hex data) = (2 * List.length data)%nat.
Proof.
  induction data as [|b data IH]; [reflexivity|].
  cbn [PyBytes.hex PyBytes.hex_byte append String.length List.length].
  rewrite IH. lia.
Qed.

Section UdpEffects.
Context {rt : Runtime}.

(** All that one round of the loop does on a pending datagram. Each line
    of the log carries the reading of the clock at the event it reports. *)
Lemma loop_body_effects (w : World Socket) (d : datagram) (rest : list datagram) :
  inbox (dev w) = d :: rest ->
  exists (w' : World Socket) (tr t1 t2 : N),
    loop_body w = Ret tt w' /\
    N.max (now w) (arrival d) <= tr /\ tr <= t1 /\ t1 + 500 <= t2 /\
    t2 <= now w' /\
    inbox (dev w') = rest /\
    bound (dev w') = bound (dev w) /\
    events (dev w') =
      events (dev w) ++ [Recvd tr (firstn 1024 (payload d)) (sender d);
                         Sent t1 [x01] (sender d);
                         Sent t2 [x00] (sender d)] /\
    stdout w' =
      stdout w ++ round_log (strftime_HMS tr) (strftime_HMS t1) (strftime_HMS t2)
                            (sender d) (firstn 1024 (payload d)).
Proof.
  destruct w as [t l out [b inb evs]]; cbn; intros ->.
  run_py.
  do 4 eexists. split; [reflexivity|].
  cbn [now dev inbox bound events stdout].
  repeat rewrite <- app_assoc. cbn [app].
  repeat split; try reflexivity; lia.
Qed.

(** The first [n] rounds of the loop, whatever [n] and the queue. *)
Lemma while_True_rounds (n : nat) :
  forall w : World Socket,
  exists (w' : World Socket) (new : list event) (lines : list string),
    while_True n loop_body w =
      (if Nat.leb n (List.length (inbox (dev w))) then Ret tt w' else Block w') /\
    inbox (dev w') = skipn n (inbox (dev w)) /\
    bound (dev w') = bound (dev w) /\
    events (dev w') = events (dev w) ++ new /\
    served (now w) (firstn n (inbox (dev w))) new /\
    stdout w' = stdout w ++ lines /\
    List.length lines = (4 * Nat.min n (List.length (inbox (dev w))))%nat.
Proof.
  induction n as [|n IH]; intros w.
  - exists w, [], []. cbn. rewrite !app_nil_r.
    repeat split. constructor.
  - destruct (inbox (dev w)) as [|d rest] eqn:Hin.
    + exists w, [], []. cbn [while_True]. unfold bind.
      rewrite (loop_body_blocks w Hin), Hin, !app_nil_r. cbn.
      repeat split. constructor.
    + destruct (loop_body_effects w Hin)
        as (w1 & tr & t1 & t2 & Hrun & Htr & Ht1 & Ht2 & Hnow & Hin1 & Hb & Hev & Hout).
      destruct (IH w1) as (w' & new & lines & Hloop & Hq & Hb' & Hev' & Hs & Hout' & Hlen).
      exists w'. do 2 eexists.
      cbn [while_True]. unfold bind at 1. rewrite Hrun.
      rewrite Hin1 in Hloop, Hq, Hs, Hlen.
      cbn [List.length Nat.leb skipn firstn].
      split; [exact Hloop|]. split; [exact Hq|].
      split; [congruence|].
      rewrite Hev', Hev, Hout', Hout, <- !app_assoc.
      split; [reflexivity|]. cbn [app].
      split; [constructor; try assumption;
              apply served_weaken with (t0 := now w1); assumption|].
      split; [reflexivity|].
      rewrite length_app. cbn [round_log List.length]. lia.
Qed.


(** X9. One round prints four lines: the receipt with the sender and the
    payload in hexadecimal, the two sends, and a rule of 45 dashes. Each of
    the first three carries the time of the event it reports (receive,
    first send, second send). At most the first 1024 bytes of the payload
    are read and shown: two hexadecimal digits per byte. *)
Theorem round_prints_four_lines
    (w : World Socket) (d : datagram) (rest : list datagram) :
  inbox (dev w) = d :: rest ->
  exists (w' : World Socket) (tr t1 t2 : N),
    loop_body w = Ret tt w' /\
    events (dev w') =
      events (dev w) ++ [Recvd tr (firstn 1024 (payload d)) (sender d);
                         Sent t1 [x01] (sender d);
                         Sent t2 [x00] (sender d)] /\
    stdout w' =
      stdout w ++ round_log (strftime_HMS tr) (strftime_HMS t1) (strftime_HMS t2)
                            (sender d) (firstn 1024 (payload d)) /\
    String.length (PyBytes.hex (firstn 1024 (payload d))) =
      (2 * Nat.min 1024 (List.length (payload d)))%nat.
Proof.
  intros Hin.
  destruct (loop_body_effects w Hin)
    as (w' & tr & t1 & t2 & Hrun & _ & _ & _ & _ & _ & _ & Hev & Hout).
  exists w', tr, t1, t2.
  split; [exact Hrun|]. split; [exact Hev|]. split; [exact Hout|].
  rewrite hex_length, length_firstn. reflexivity.
Qed.

Lemma served_release_times (t0 : N) ds es :
  served t0 ds es ->
  forall (i : nat) (t : N) (b : list byte) (a : address),
    nth_error (sends es) (2 * i + 1) = Some (t, b, a) ->
    b = [x00] /\ t0 + 500 * (N.of_nat i + 1) <= t.
Proof.
  induction 1 as [|t0 d ds tr t1 t2 es H1 H2 H3 Hs IH]; intros i t b a Hn.
  - destruct i; discriminate.
  - cbn [sends] in Hn. destruct i as [|i].
    + cbn in Hn. injection Hn as <- <- <-. split; [reflexivity | lia].
    + replace (2 * S i + 1)%nat with (S (S (2 * i + 1))) in Hn by lia.
      cbn [nth_error] in Hn.
      destruct (IH i t b a Hn) as [Hb Ht]. split; [exact Hb | lia].
Qed.

(** X10. Delays add up, since the loop serves one datagram at a time: in a
    run that starts with no event recorded, the release reply (0x00) to the
    datagram at position [i] of the queue, counted from 0, is sent no
    earlier than [(i + 1)] times 500 ms after the start, whenever the
    datagrams arrived. *)
Theorem releases_lag_behind_by_half_a_second_each
    (w w' : World Socket) (k i : nat) (t : N) (b : list byte) (a : address) :
  events (dev w) = [] ->
  while_True (List.length (inbox (dev w)) + S k) loop_body w = Block w' ->
  nth_error (sends (events (dev w'))) (2 * i + 1) = Some (t, b, a) ->
  b = [x00] /\ now w + 500 * (N.of_nat i + 1) <= t.
Proof.
  intros Hev Hrun Hn.
  destruct (@while_True_serves _ _ w k eq_refl)
    as (w'' & new & Hrun' & _ & Hev' & Hserved).
  rewrite Hrun in Hrun'. injection Hrun' as <-.
  rewrite Hev', Hev in Hn. cbn [app] in Hn.
  exact (served_release_times Hserved i Hn).
Qed.

(** X11. The script binds its socket to port 8050 on all interfaces and
    prints the listening line before the loop takes its first datagram;
    queue and trace are untouched until then, and the socket is still bound
    to that address whenever the loop stops. *)
Theorem udp_main_binds_then_loops (n : nat) (w : World Socket) :
  exists w0 : World Socket,
    udpServerSim.main n w = while_True n loop_body w0 /\
    bound (dev w0) = Some (HOST, PORT) /\
    inbox (dev w0) = inbox (dev w) /\
    events (dev w0) = events (dev w) /\
    stdout w0 = stdout w ++ [listening_line] /\
    now w <= now w0 /\
    bound (dev (final (udpServerSim.main n w))) = Some ("", 8050)%string.
Proof.
  destruct w as [t l out [b inb evs]].
  exists (mkWorld (t + hd 0 l + hd 0 (tl l)) (tl (tl l)) (out ++ [listening_line])
                  (mkSocket (Some (HOST, PORT)) inb evs)).
  assert (Hmain : udpServerSim.main n (mkWorld t l out (mkSocket b inb evs)) =
                  while_True n loop_body
                    (mkWorld (t + hd 0 l + hd 0 (tl l)) (tl (tl l))
                             (out ++ [listening_line])
                             (mkSocket (Some (HOST, PORT)) inb evs)))
    by reflexivity.
  split; [exact Hmain|].
  cbn [dev bound inbox events stdout now].
  do 4 (split; [reflexivity|]). split; [lia|].
  rewrite Hmain.
  destruct (while_True_rounds n
              (mkWorld (t + hd 0 l + hd 0 (tl l)) (tl (tl l)) (out ++ [listening_line])
                       (mkSocket (Some (HOST, PORT)) inb evs)))
    as (w' & new & lines & Hrun & _ & Hb & _).
  rewrite Hrun. destruct (Nat.leb _ _); exact Hb.
Qed.

End UdpEffects.

Lemma round_prints_four_lines_witness :
  exists (w' : World Socket) (tr t1 t2 : N),
    loop_body (rt := sample_runtime) sample_socket1 = Ret tt w' /\
    events (dev w') =
      [Recvd tr [xde; xad] alice; Sent t1 [x01] alice; Sent t2 [x00] alice] /\
    stdout w' =
      round_log (rt := sample_runtime)
                (PyStr.of_N (tr / 1000)) (PyStr.of_N (t1 / 1000)) (PyStr.of_N (t2 / 1000))
                alice [xde; xad] /\
    String.length (PyBytes.hex [xde; xad]) = 4%nat.
Proof.
  exact (@round_prints_four_lines sample_runtime sample_socket1
           (mkDatagram 10 [xde; xad] alice) [] eq_refl).
Defined.

Lemma releases_lag_behind_by_half_a_second_each_witness :
  [x00] = [x00] /\ 0 + 500 * (N.of_nat 2 + 1) <= 5500.
Proof.
  eapply (@releases_lag_behind_by_half_a_second_each sample_runtime
            sample_socket3 _ 0%nat 2%nat 5500 [x00] alice).
  - reflexivity.
  - vm_compute. reflexivity.
  - vm_compute. reflexivity.
Defined.

Lemma rejected_target_gets_no_response_witness :
  handled (rt := sample_runtime) post_bad_target (mkWorld 0 [3; 4] [] tt) =
    Raise (ValueError "Invalid IPv6 URL")
          (mkWorld 0 [3; 4] [] (mkHandler post_bad_target [] [] true)) /\
  process_request (GatekeeperAPIHandler (rt := sample_runtime))
                  sample_server post_bad_target =
    mkWorld 0 [3; 4] [] [[]].
Proof.
  exact (@rejected_target_gets_no_response sample_runtime post_bad_target
           sample_server (ValueError "Invalid IPv6 URL") eq_refl eq_refl).
Defined.

Lemma trigger_reply_header_fields_witness :
  exists td : N,
    0 + 100 <= td /\
    header_fields (respond (rt := sample_runtime) post_trigger sample_world) =
      [("Server", "BaseHTTP/0.6 Python/3.11.2");
       ("Date", PyStr.of_N (td / 1000));
       ("Access-Control-Allow-Origin", "*");
       ("Access-Control-Allow-Methods", "POST, OPTIONS");
       ("Access-Control-Allow-Headers", "Content-Type");
       ("Content-Type", "text/plain")]%string /\
    (forall v : string,
        ~ has_header "Content-Length" v
            (respond (rt := sample_runtime) post_trigger sample_world)).
Proof.
  apply (@trigger_reply_header_fields sample_runtime post_trigger sample_world).
  split; [reflexivity | eexists; split; reflexivity].
Defined.

Lemma post_trigger_ignores_params_witness :
  is_trigger (rt := sample_runtime) post_trigger_params /\
  status_of (respond (rt := sample_runtime) post_trigger_params sample_world) = Some 200 /\
  body_of (respond (rt := sample_runtime) post_trigger_params sample_world) = [x4f; x4b].
Proof.
  exact (@post_trigger_ignores_params sample_runtime post_trigger_params sample_world
           "v=2" eq_refl eq_refl eq_refl eq_refl eq_refl).
Defined.
